(** * run.py: the pipeline bootstrap script

    A shallow embedding of [run.py] and the properties of its five steps:
    environment setup, session creation, runner construction, execution
    and result reporting.

    The script is glue around four collaborators that live outside the
    file (the session service, the runner, the pipeline object and the
    result items the runner yields).  They are kept abstract:

    - result items are values of a type [V] carrying the operations the
      print loop performs on them (class of the value, [__dict__], the
      text [pprint] writes, [str]), each of which may raise;
    - the session service and the runner are test doubles supplied by an
      environment record [Env];
    - everything the script does to the outside world is recorded, in
      program order, in a trace of events.

    Statements of the script run in a state-and-exception monad: a raised
    exception skips the rest of the block and keeps the world reached so
    far, exactly as an uncaught Python exception does.

    The places where the run can fail are the ones the collaborators
    decide: the answer of [create_session], the items and exceptions the
    result generator produces, and the [__dict__], [repr] and [str] of a
    result item.  Loading modules, building the service and the runner,
    calling [runner.run] (which only builds the generator) and writing a
    line to standard output are taken to succeed. *)

From Stdlib Require Import Ascii String List Bool Arith Lia Sorted.
From ExtLib Require Import Structures.Monad.
Import ListNotations.
Import MonadNotation.

Local Open Scope string_scope.
Local Open Scope list_scope.
Local Open Scope monad_scope.

Set Implicit Arguments.

(** ** Classes and exceptions *)

(** A class has a name and a list of base classes.  Two classes are the
    same class when they have the same name and the same bases. *)
#[warnings="-register-all"]
Inductive pyclass : Type :=
| Class (name : string) (bases : list pyclass) : pyclass.

Definition object_ : pyclass := Class "object" [].

(** [class name(base): ...] *)
Definition subclass (name : string) (base : pyclass) : pyclass :=
  Class name [base].

Fixpoint pyclass_eqb (c d : pyclass) {struct c} : bool :=
  match c, d with
  | Class n bs, Class n' bs' =>
      String.eqb n n' &&
      (fix bases_eqb (l l' : list pyclass) {struct l} : bool :=
         match l, l' with
         | [], [] => true
         | b :: l, b' :: l' => pyclass_eqb b b' && bases_eqb l l'
         | _, _ => false
         end) bs bs'
  end.

(** [issubclass(c, d)]: [d] is [c] or is reached from [c] through bases. *)
Fixpoint issubclass (c d : pyclass) {struct c} : bool :=
  pyclass_eqb c d ||
  match c with
  | Class _ bases => existsb (fun base => issubclass base d) bases
  end.

Definition dict : pyclass := subclass "dict" object_.
Definition BaseException : pyclass := subclass "BaseException" object_.
Definition Exception : pyclass := subclass "Exception" BaseException.
Definition KeyboardInterrupt : pyclass := subclass "KeyboardInterrupt" BaseException.
Definition SystemExit : pyclass := subclass "SystemExit" BaseException.
Definition AttributeError : pyclass := subclass "AttributeError" Exception.
Definition ValueError : pyclass := subclass "ValueError" Exception.
Definition RuntimeError : pyclass := subclass "RuntimeError" Exception.

(** A raised exception: its class and its message. *)
Record exn : Type := Exn { exn_class : pyclass; exn_msg : string }.

(** The outcome of an operation that may raise. *)
Definition outcome (A : Type) : Type := (exn + A)%type.

Definition is_ok {A : Type} (r : outcome A) : bool :=
  match r with inr _ => true | inl _ => false end.

(** ** Result items *)

(** What the print loop can ask of a result item. *)
Class PyObject (V : Type) : Type := {
  (** [type(v)] *)
  type_of : V -> pyclass;
  (** [v.__dict__] *)
  getattr_dict : V -> outcome V;
  (** the text [pprint(v)] writes; it is computed from the [repr] of the
      value and of its contents before anything is written *)
  pformat : V -> outcome string;
  (** [str(v)] *)
  py_str : V -> outcome string
}.

(** ** Messages *)

Record Part : Type := mkPart { text : string }.
Record Content : Type := mkContent { role : string; parts : list Part }.

(** [UserContent(parts)]: content authored by the user. *)
Definition UserContent (ps : list Part) : Content :=
  {| role := "user"; parts := ps |}.

(** ** Sessions and collaborators *)

Record Session : Type := mkSession {
  session_user_id : string;
  session_id : string;
  session_app_name : string
}.

Record Agent : Type := mkAgent { agent_str : string }.

(** ** Events and the world *)

Inductive event (V : Type) : Type :=
| EvLoadDotenv
| EvImport (module : string)
| EvSysPathInsert (index : nat) (dir : string)
| EvStdout (line : string)
| EvNewSessionService
| EvAsyncioRunEnter
| EvCreateSession (user_id session_id app_name : string)
| EvAsyncioRunReturn
| EvNewRunner (agent : Agent) (app_name : string)
| EvRunnerRun (user_id session_id : string) (new_message : Content)
| EvNext
| EvGetDict (v : V)
| EvPFormat (v : V)
| EvStr (v : V).

Arguments EvLoadDotenv {V}.
Arguments EvImport {V} module.
Arguments EvSysPathInsert {V} index dir.
Arguments EvStdout {V} line.
Arguments EvNewSessionService {V}.
Arguments EvAsyncioRunEnter {V}.
Arguments EvCreateSession {V} user_id session_id app_name.
Arguments EvAsyncioRunReturn {V}.
Arguments EvNewRunner {V} agent app_name.
Arguments EvRunnerRun {V} user_id session_id new_message.
Arguments EvNext {V}.

Record world (V : Type) : Type := mkWorld {
  sys_path : list string;
  trace : list (event V)
}.

(** ** The monad of statements *)

Definition M (V A : Type) : Type := world V -> outcome A * world V.

Definition Mret {V A : Type} (a : A) : M V A := fun w => (inr a, w).

Definition Mbind {V A B : Type} (m : M V A) (f : A -> M V B) : M V B :=
  fun w =>
    match m w with
    | (inr a, w') => f a w'
    | (inl e, w') => (inl e, w')
    end.

#[export] Instance Monad_M (V : Type) : Monad (M V) :=
  {| ret := @Mret V; bind := @Mbind V |}.

Definition raise {V A : Type} (e : exn) : M V A := fun w => (inl e, w).

(** Lift the outcome of an operation on a value into a statement. *)
Definition lift {V A : Type} (r : outcome A) : M V A := fun w => (r, w).

Definition log {V : Type} (ev : event V) : M V unit :=
  fun w => (inr tt, {| sys_path := sys_path w; trace := trace w ++ [ev] |}).

(** [isinstance(e, cls)] for a raised exception. *)
Definition exn_isinstance (e : exn) (cls : pyclass) : bool :=
  issubclass (exn_class e) cls.

(** [try: body except cls: handler] *)
Definition try_except {V A : Type} (body : M V A) (cls : pyclass)
    (handler : M V A) : M V A :=
  fun w =>
    match body w with
    | (inr a, w') => (inr a, w')
    | (inl e, w') =>
        if exn_isinstance e cls then handler w' else (inl e, w')
    end.

(** ** Collaborators as test doubles *)

(** The session service: what its [create_session] answers. *)
Record SessionService : Type := mkSessionService {
  svc_create_session :
    forall (user_id session_id app_name : string), outcome Session
}.

(** The environment the script runs in. *)
Record Env (V : Type) : Type := mkEnv {
  (** [__name__] *)
  env_name : string;
  (** [os.path.dirname(os.path.abspath(__file__))] *)
  env_current_dir : string;
  (** the object bound by [from pipeline.sre_pipeline import sre_pipeline] *)
  env_sre_pipeline : Agent;
  (** the object [InMemorySessionService()] builds *)
  env_session_service : SessionService;
  (** what the successive [next()] calls on the generator returned by
      [runner.run(user_id, session_id, new_message)] produce: an item or
      a raised exception; after the last one the generator is exhausted *)
  env_results :
    forall (user_id session_id : string) (new_message : Content),
      list (outcome V)
}.

(** A runner, as built by [Runner(agent=..., app_name=..., session_service=...)]. *)
Record runner : Type := mkRunner {
  runner_agent : Agent;
  runner_app_name : string;
  runner_session_service : SessionService
}.

(** [list.insert(index, x)] for a non-negative index: past the end it
    appends. *)
Definition list_insert {A : Type} (index : nat) (x : A) (l : list A) : list A :=
  firstn index l ++ x :: skipn index l.

(** The path-based search of the import system: the first entry of the
    search path that provides the package wins. *)
Fixpoint find_on_path (provides : string -> string -> bool)
    (path : list string) (package : string) : option string :=
  match path with
  | [] => None
  | dir :: path' =>
      if provides dir package then Some dir
      else find_on_path provides path' package
  end.

Section Script.

Context {V : Type} `{PyObject V}.
Variable env : Env V.

(** *** Library calls *)

Definition import_ (module : string) : M V unit := log (EvImport module).

Definition load_dotenv : M V unit := log EvLoadDotenv.

(** [sys.path.insert(index, dir)] *)
Definition sys_path_insert (index : nat) (dir : string) : M V unit :=
  fun w =>
    (inr tt,
     {| sys_path := list_insert index dir (sys_path w);
        trace := trace w ++ [EvSysPathInsert index dir] |}).

Definition print (line : string) : M V unit := log (EvStdout line).

(** [pprint(v)]: format, then write. *)
Definition pprint (v : V) : M V unit :=
  log (EvPFormat v) ;;
  s <- lift (pformat v) ;;
  log (EvStdout s).

(** [str(v)] *)
Definition str (v : V) : M V string :=
  log (EvStr v) ;;
  lift (py_str v).

(** [v.__dict__] *)
Definition get___dict__ (v : V) : M V V :=
  log (EvGetDict v) ;;
  lift (getattr_dict v).

(** [isinstance(v, cls)] *)
Definition isinstance (v : V) (cls : pyclass) : bool :=
  issubclass (type_of v) cls.

Definition InMemorySessionService : M V SessionService :=
  log EvNewSessionService ;;
  ret (env_session_service env).

(** A coroutine object: a body that has not started to run. *)
Record coroutine (A : Type) : Type := mkCoroutine { co_body : M V A }.

(** [session_service.create_session(...)] builds the coroutine; its
    body asks the service once it runs. *)
Definition create_session (svc : SessionService)
    (user_id session_id app_name : string) : coroutine Session :=
  {| co_body :=
       log (EvCreateSession user_id session_id app_name) ;;
       lift (svc_create_session svc user_id session_id app_name) |}.

(** [asyncio.run(coro)]: drive the coroutine to completion and return
    its value. *)
Definition asyncio_run {A : Type} (coro : coroutine A) : M V A :=
  log EvAsyncioRunEnter ;;
  r <- co_body coro ;;
  log EvAsyncioRunReturn ;;
  ret r.

Definition Runner (agent : Agent) (app_name : string)
    (session_service : SessionService) : M V runner :=
  log (EvNewRunner agent app_name) ;;
  ret {| runner_agent := agent;
         runner_app_name := app_name;
         runner_session_service := session_service |}.

(** [runner.run(...)] returns the generator of results. *)
Definition runner_run (r : runner) (user_id session_id : string)
    (new_message : Content) : M V (list (outcome V)) :=
  log (EvRunnerRun user_id session_id new_message) ;;
  ret (env_results env user_id session_id new_message).

(** [for x in gen: body]: every round asks the generator for its next
    item; an exception raised by the generator leaves the loop. *)
Fixpoint for_in (gen : list (outcome V)) (body : V -> M V unit) : M V unit :=
  match gen with
  | [] => log EvNext
  | inl e :: _ => log EvNext ;; raise e
  | inr x :: gen' => log EvNext ;; body x ;; for_in gen' body
  end.

(** *** The script *)

(** Lines 54-60: the body of the print loop. *)
Definition report (result : V) : M V unit :=
  if isinstance result dict then
    pprint result
  else
    try_except
      (d <- get___dict__ result ;; pprint d)
      Exception
      (s <- str result ;; print s).

(** Lines 35-60: the block under [if __name__ == "__main__":]. *)
Definition main_block : M V unit :=
  let sre_pipeline := env_sre_pipeline env in
  session_service <- InMemorySessionService ;;
  asyncio_run (create_session session_service "u1" "sess1" "agents") ;;
  runner <- Runner sre_pipeline "agents" session_service ;;
  print "[DEBUG] Starting pipeline run..." ;;
  result_gen <- runner_run runner "u1" "sess1" (UserContent [mkPart "run"]) ;;
  print "[DEBUG] Pipeline run complete. Results:" ;;
  for_in result_gen report.

(** Lines 13-31: what the module does when it is loaded. *)
Definition module_top : M V unit :=
  let sre_pipeline := env_sre_pipeline env in
  import_ "sys" ;; import_ "os" ;;
  import_ "asyncio" ;;
  import_ "dotenv" ;;
  load_dotenv ;;
  import_ "pprint" ;;
  import_ "sys" ;; import_ "os" ;;
  let current_dir := env_current_dir env in
  sys_path_insert 0 current_dir ;;
  import_ "google.adk.runners" ;;
  import_ "google.adk.sessions" ;;
  import_ "google.genai.types" ;;
  import_ "pipeline.sre_pipeline" ;;
  print ("Loaded pipeline from: " ++ agent_str sre_pipeline).

(** The whole file. *)
Definition script : M V unit :=
  module_top ;;
  if String.eqb (env_name env) "__main__" then main_block else ret tt.

End Script.

(** The world the interpreter starts the script in. *)
Definition initial_world (V : Type) (path : list string) : world V :=
  {| sys_path := path; trace := [] |}.

(** What the run wrote to standard output, in order. *)
Fixpoint stdout_of {V : Type} (t : list (event V)) : list string :=
  match t with
  | [] => []
  | EvStdout line :: t' => line :: stdout_of t'
  | _ :: t' => stdout_of t'
  end.

(** ** Doubles used in the examples *)

(** A value described by the answers it gives. *)
#[warnings="-register-all"]
Inductive obj : Type :=
| Obj (cls : pyclass) (repr_ : outcome string) (str_ : outcome string)
      (dict_ : outcome obj).

#[export] Instance PyObject_obj : PyObject obj := {|
  type_of := fun '(Obj c _ _ _) => c;
  getattr_dict := fun '(Obj _ _ _ d) => d;
  pformat := fun '(Obj _ r _ _) => r;
  py_str := fun '(Obj _ _ s _) => s
|}.

Definition no___dict__ : exn :=
  Exn AttributeError "object has no attribute '__dict__'".

(** [{'status': 'ok'}] *)
Definition a_mapping : obj :=
  Obj dict (inr "{'status': 'ok'}") (inr "{'status': 'ok'}") (inl no___dict__).

(** An instance of [class Event: ...] with one attribute. *)
Definition an_event : obj :=
  Obj (subclass "Event" object_) (inr "<Event object>") (inr "<Event object>")
      (inr (Obj dict (inr "{'author': 'sre'}") (inr "{'author': 'sre'}")
                (inl no___dict__))).

(** An instance of a class with [__slots__ = ()]: no attribute dictionary. *)
Definition a_plain : obj :=
  Obj (subclass "Plain" object_) (inr "<Plain object>") (inr "plain")
      (inl no___dict__).

Definition demo_service : SessionService :=
  {| svc_create_session := fun u s a => inr (mkSession u s a) |}.

Definition demo_env (results : list (outcome obj)) : Env obj :=
  {| env_name := "__main__";
     env_current_dir := "/srv/app";
     env_sre_pipeline := mkAgent "<SequentialAgent sre_pipeline>";
     env_session_service := demo_service;
     env_results := fun _ _ _ => results |}.

(** An instance of [class Bag(Mixin, dict): pass]: a mapping that also
    has an attribute dictionary and a string form of its own. *)
Definition a_dict_subclass_instance : obj :=
  Obj (Class "Bag" [subclass "Mixin" object_; dict]) (inr "{'n': 1}") (inr "Bag!")
      (inr (Obj dict (inr "{}") (inr "{}") (inl no___dict__))).

(** [{'bad': Broken()}] where [Broken.__repr__] raises [ValueError]. *)
Definition a_broken_mapping : obj :=
  Obj dict (inl (Exn ValueError "broken repr"))
      (inl (Exn ValueError "broken repr")) (inl no___dict__).

(** An object whose attribute dictionary holds a value with a raising
    [__repr__]; its own string form is fine. *)
Definition an_unprintable_event : obj :=
  Obj (subclass "Event" object_) (inr "<Event object>") (inr "event#1")
      (inr (Obj dict (inl (Exn ValueError "broken repr"))
                (inl (Exn ValueError "broken repr")) (inl no___dict__))).

(** An object whose [__dict__] is a property that raises
    [KeyboardInterrupt]. *)
Definition an_interrupting : obj :=
  Obj (subclass "Slow" object_) (inr "<Slow object>") (inr "slow")
      (inl (Exn KeyboardInterrupt "")).

(** A session service that refuses every session. *)
Definition failing_service : SessionService :=
  {| svc_create_session := fun _ _ _ => inl (Exn ValueError "session exists") |}.

Definition failing_env (results : list (outcome obj)) : Env obj :=
  {| env_name := "__main__";
     env_current_dir := "/srv/app";
     env_sre_pipeline := mkAgent "<SequentialAgent sre_pipeline>";
     env_session_service := failing_service;
     env_results := fun _ _ _ => results |}.

(** ** Vocabulary of the properties *)

(** The world after more events. *)
Definition add_events {V : Type} (w : world V) (evs : list (event V)) : world V :=
  {| sys_path := sys_path w; trace := trace w ++ evs |}.

(** [emits m r evs]: from any world, [m] ends with outcome [r], has
    appended exactly [evs] to the trace and has left [sys.path] alone. *)
Definition emits {V A : Type} (m : M V A) (r : outcome A)
    (evs : list (event V)) : Prop :=
  forall w, m w = (r, add_events w evs).

Definition is_create_session {V : Type} (e : event V) : bool :=
  match e with EvCreateSession _ _ _ => true | _ => false end.

Definition is_new_runner {V : Type} (e : event V) : bool :=
  match e with EvNewRunner _ _ => true | _ => false end.

Definition is_runner_run {V : Type} (e : event V) : bool :=
  match e with EvRunnerRun _ _ _ => true | _ => false end.

Definition is_next {V : Type} (e : event V) : bool :=
  match e with EvNext => true | _ => false end.

(** Events that consult the attribute dictionary or the string form of
    a value. *)
Definition consults_dict_or_str {V : Type} (e : event V) : bool :=
  match e with EvGetDict _ | EvStr _ => true | _ => false end.

(** The steps of the bootstrap, in the order of section 4.1. *)
Inductive step : Type :=
| EnvironmentSetup
| SessionCreation
| RunnerConstruction
| Execution
| ResultReporting.

Definition step_rank (s : step) : nat :=
  match s with
  | EnvironmentSetup => 0
  | SessionCreation => 1
  | RunnerConstruction => 2
  | Execution => 3
  | ResultReporting => 4
  end.

(** The step an event belongs to.  A line on standard output belongs to
    whichever step wrote it and is left out. *)
Definition step_of {V : Type} (e : event V) : option step :=
  match e with
  | EvLoadDotenv | EvImport _ | EvSysPathInsert _ _ => Some EnvironmentSetup
  | EvStdout _ => None
  | EvNewSessionService | EvAsyncioRunEnter
  | EvCreateSession _ _ _ | EvAsyncioRunReturn => Some SessionCreation
  | EvNewRunner _ _ => Some RunnerConstruction
  | EvRunnerRun _ _ _ => Some Execution
  | EvNext | EvGetDict _ | EvPFormat _ | EvStr _ => Some ResultReporting
  end.

Fixpoint steps_of {V : Type} (t : list (event V)) : list step :=
  match t with
  | [] => []
  | e :: t' =>
      match step_of e with
      | Some s => s :: steps_of t'
      | None => steps_of t'
      end
  end.

(** The fallback chain in the words of the specification: a mapping is
    pretty-printed; otherwise the attribute dictionary is pretty-printed
    when that can be done; otherwise the string form is printed. *)
Definition render_spec {V : Type} `{PyObject V} (v : V) : outcome string :=
  if issubclass (type_of v) dict then pformat v
  else
    match getattr_dict v with
    | inr d =>
        match pformat d with
        | inr s => inr s
        | inl _ => py_str v
        end
    | inl _ => py_str v
    end.

(** The loop goes on with the items after [v]: it behaves as the
    printing of [v] followed by the loop over the remaining stream. *)
Definition continues_after {V : Type} `{PyObject V} (v : V)
    (rest : list (outcome V)) : Prop :=
  forall w : world V,
    exists w1 : world V,
      report v (add_events w [EvNext]) = (inr tt, w1) /\
      for_in (inr v :: rest) report w = for_in rest report w1.

Definition is_str {V : Type} (e : event V) : bool :=
  match e with EvStr _ => true | _ => false end.

(** Events of the print loop. *)
Definition reporting_event {V : Type} (e : event V) : bool :=
  match e with
  | EvNext | EvGetDict _ | EvPFormat _ | EvStr _ | EvStdout _ => true
  | _ => false
  end.

(** The message the script submits. *)
Definition run_message : Content :=
  {| role := "user"; parts := [{| text := "run" |}] |}.

(** The events of lines 13-31. *)
Definition module_top_events {V : Type} (env : Env V) : list (event V) :=
  [EvImport "sys"; EvImport "os"; EvImport "asyncio"; EvImport "dotenv";
   EvLoadDotenv; EvImport "pprint"; EvImport "sys"; EvImport "os";
   EvSysPathInsert 0 (env_current_dir env);
   EvImport "google.adk.runners"; EvImport "google.adk.sessions";
   EvImport "google.genai.types"; EvImport "pipeline.sre_pipeline";
   EvStdout ("Loaded pipeline from: " ++ agent_str (env_sre_pipeline env))].

(** The events of lines 35-38 up to the answer of the session service. *)
Definition session_request_events {V : Type} : list (event V) :=
  [EvNewSessionService; EvAsyncioRunEnter;
   EvCreateSession "u1" "sess1" "agents"].

(** The events of lines 38-52 once the session exists. *)
Definition launch_events {V : Type} (env : Env V) : list (event V) :=
  [EvAsyncioRunReturn;
   EvNewRunner (env_sre_pipeline env) "agents";
   EvStdout "[DEBUG] Starting pipeline run...";
   EvRunnerRun "u1" "sess1" run_message;
   EvStdout "[DEBUG] Pipeline run complete. Results:"].

(** The world in which the print loop starts. *)
Definition world_before_loop {V : Type} (env : Env V) (path : list string)
    : world V :=
  {| sys_path := env_current_dir env :: path;
     trace := module_top_events env ++ session_request_events
              ++ launch_events env |}.

(** The world in which a refused session leaves the script. *)
Definition world_at_refusal {V : Type} (env : Env V) (path : list string)
    : world V :=
  {| sys_path := env_current_dir env :: path;
     trace := module_top_events env ++ session_request_events |}.

(** The outcome of a run of the script, the events of the run and the
    module search path it leaves, for an interpreter started with the
    search path [path]. *)
Definition script_outcome {V : Type} `{PyObject V} (env : Env V)
    (path : list string) : outcome unit :=
  fst (script env (initial_world V path)).

Definition script_trace {V : Type} `{PyObject V} (env : Env V)
    (path : list string) : list (event V) :=
  trace (snd (script env (initial_world V path))).

Definition script_sys_path {V : Type} `{PyObject V} (env : Env V)
    (path : list string) : list string :=
  sys_path (snd (script env (initial_world V path))).

(** The ways a run of the script can go. *)
Inductive script_case {V : Type} `{PyObject V} (env : Env V)
    (path : list string) : outcome unit -> world V -> Prop :=
| RunImported :
    String.eqb (env_name env) "__main__" = false ->
    script_case env path (inr tt)
      {| sys_path := env_current_dir env :: path;
         trace := module_top_events env |}
| RunRefused (e : exn) :
    env_name env = "__main__" ->
    svc_create_session (env_session_service env) "u1" "sess1" "agents"
      = inl e ->
    script_case env path (inl e) (world_at_refusal env path)
| RunLooped (session : Session) (r : outcome unit) (evs : list (event V)) :
    env_name env = "__main__" ->
    svc_create_session (env_session_service env) "u1" "sess1" "agents"
      = inr session ->
    emits (for_in (env_results env "u1" "sess1" run_message) report) r evs ->
    forallb reporting_event evs = true ->
    script_case env path r (add_events (world_before_loop env path) evs).

(** ** Vocabulary of the further properties *)

(** The outcome of a block that ends with the exception [o], if any. *)
Definition exn_outcome (o : option exn) : outcome unit :=
  match o with
  | Some e => inl e
  | None => inr tt
  end.

(** The attempt [pprint(result.__dict__)] raises [e]: either the
    attribute access does, or the pretty-printing of the dictionary. *)
Definition attempt_fails {V : Type} `{PyObject V} (v : V) (e : exn) : Prop :=
  getattr_dict v = inl e \/
  exists d, getattr_dict v = inr d /\ pformat d = inl e.

(** The exception the guarded attempt of lines 57-58 ends with, if any. *)
Definition attempt_exn {V : Type} `{PyObject V} (v : V) : option exn :=
  match getattr_dict v with
  | inl e => Some e
  | inr d =>
      match pformat d with
      | inl e => Some e
      | inr _ => None
      end
  end.

(** The exception that leaves the body of the print loop (lines 54-60)
    for the item [v], if any, read off the answers of the item. *)
Definition report_exn {V : Type} `{PyObject V} (v : V) : option exn :=
  if issubclass (type_of v) dict then
    match pformat v with
    | inl e => Some e
    | inr _ => None
    end
  else
    match attempt_exn v with
    | None => None
    | Some e =>
        if exn_isinstance e Exception then
          match py_str v with
          | inl e' => Some e'
          | inr _ => None
          end
        else Some e
    end.

(** The item is printed without an exception leaving the loop body. *)
Definition printable {V : Type} `{PyObject V} (v : V) : bool :=
  match report_exn v with
  | None => true
  | Some _ => false
  end.

(** The exception one round of the loop ends with, if any: the one the
    generator raises, or the one that leaves the body for its item. *)
Definition entry_exn {V : Type} `{PyObject V} (o : outcome V) : option exn :=
  match o with
  | inl e => Some e
  | inr v => report_exn v
  end.

(** The exception of the first round that ends with one. *)
Fixpoint loop_exn {V : Type} `{PyObject V} (gen : list (outcome V))
    : option exn :=
  match gen with
  | [] => None
  | o :: gen' =>
      match entry_exn o with
      | Some e => Some e
      | None => loop_exn gen'
      end
  end.

(** An item without attribute dictionary whose [__str__] raises. *)
Definition a_silent : obj :=
  Obj (subclass "Silent" object_) (inr "<Silent object>")
      (inl (Exn RuntimeError "no string form")) (inl no___dict__).

(** The script loaded with [import run]. *)
Definition imported_env : Env obj :=
  {| env_name := "run";
     env_current_dir := "/srv/app";
     env_sre_pipeline := mkAgent "<SequentialAgent sre_pipeline>";
     env_session_service := demo_service;
     env_results := fun _ _ _ => [inr a_mapping] |}.

(** ** Vocabulary of the import search *)

(** What an entry of the search path holds under a name: nothing, a
    module or regular package (a directory with [__init__.py]), or a
    bare directory, which is only a portion of a namespace package. *)
Inductive entry_kind : Type :=
| NoEntry
| RegularEntry
| NamespacePortion.

(** What the path search ends with. *)
Inductive resolution : Type :=
| NotFound
| FoundIn (dir : string)
| NamespaceOf (portions : list string).

(** The path search of the import system: the entries are tried in
    order; a module or regular package ends the search; a namespace
    portion is remembered and the search goes on; when the path is
    exhausted the portions, if any, make a namespace package. *)
Fixpoint path_search_from (holds : string -> string -> entry_kind)
    (portions : list string) (path : list string) (package : string)
    : resolution :=
  match path with
  | [] =>
      match portions with
      | [] => NotFound
      | _ :: _ => NamespaceOf (rev portions)
      end
  | dir :: path' =>
      match holds dir package with
      | RegularEntry => FoundIn dir
      | NamespacePortion =>
          path_search_from holds (dir :: portions) path' package
      | NoEntry => path_search_from holds portions path' package
      end
  end.

Definition path_search (holds : string -> string -> entry_kind)
    (path : list string) (package : string) : resolution :=
  path_search_from holds [] path package.

(** The top-level package of a dotted module name. *)
Fixpoint top_level (name : string) : string :=
  match name with
  | EmptyString => EmptyString
  | String c name' =>
      if Ascii.eqb c "."%char then EmptyString
      else String c (top_level name')
  end.

(** The search path in force after the events [t], for a run started
    with [path]: only [sys.path.insert] changes it. *)
Fixpoint replay_sys_path {V : Type} (path : list string)
    (t : list (event V)) : list string :=
  match t with
  | [] => path
  | EvSysPathInsert index dir :: t' =>
      replay_sys_path (list_insert index dir path) t'
  | _ :: t' => replay_sys_path path t'
  end.

(** What the path search finds for each import statement of a run, on
    the search path in force when the statement runs.  (A module that is
    built in or already loaded does not reach the path search.) *)
Fixpoint import_resolutions {V : Type}
    (holds : string -> string -> entry_kind) (path : list string)
    (t : list (event V)) : list (string * resolution) :=
  match t with
  | [] => []
  | EvSysPathInsert index dir :: t' =>
      import_resolutions holds (list_insert index dir path) t'
  | EvImport module :: t' =>
      (module, path_search holds path (top_level module))
      :: import_resolutions holds path t'
  | _ :: t' => import_resolutions holds path t'
  end.

(** Events that neither import nor change the search path. *)
Definition no_import_event {V : Type} (e : event V) : bool :=
  match e with
  | EvImport _ | EvSysPathInsert _ _ => false
  | _ => true
  end.

(** A [dotenv] package both next to the script and among the installed
    packages. *)
Definition dotenv_in_both (dir package : string) : entry_kind :=
  if String.eqb package "dotenv" &&
     (String.eqb dir "/srv/app" ||
      String.eqb dir "/usr/lib/python3/site-packages")
  then RegularEntry else NoEntry.

(** A regular [pipeline] package both next to the script and among the
    installed packages. *)
Definition pipeline_in_both (dir package : string) : entry_kind :=
  if String.eqb package "pipeline" &&
     (String.eqb dir "/srv/app" ||
      String.eqb dir "/usr/lib/python3/site-packages")
  then RegularEntry else NoEntry.

(** A bare [pipeline] directory next to the script and a regular
    [pipeline] package among the installed packages. *)
Definition pipeline_bare_locally (dir package : string) : entry_kind :=
  if String.eqb package "pipeline" then
    if String.eqb dir "/srv/app" then NamespacePortion
    else if String.eqb dir "/usr/lib/python3/site-packages" then RegularEntry
    else NoEntry
  else NoEntry.

(** The search path of an interpreter that does not put the directory of
    the script on it (safe-path mode). *)
Definition safe_path : list string :=
  ["/usr/lib/python3"; "/usr/lib/python3/site-packages"].

(** ** Vocabulary of the printing of every item *)

(** The loop prints every item of the sequence, each by its branch of
    the fallback chain, in the order of the sequence. *)
Definition every_item_printed {V : Type} `{PyObject V} (items : list V)
    : Prop :=
  forall w : world V,
    exists outputs : list string,
      stdout_of (trace (snd (for_in (map inr items) report w)))
      = stdout_of (trace w) ++ outputs /\
      Forall2 (fun v output => render_spec v = inr output) items outputs.

(** Run a straight-line statement on a symbolic world. *)
Ltac run_stmt :=
  intros ?w;
  cbn [bind ret Monad_M];
  unfold Mbind, Mret, log, lift, raise, add_events;
  cbn [fst snd sys_path trace];
  repeat match goal with
    | Hr : ?x = _ |- context [?x] => rewrite Hr
    end;
  cbn [fst snd sys_path trace];
  rewrite <- ?app_assoc; cbn [app];
  try reflexivity.

(** * Properties *)

Unset Implicit Arguments.

(** ** The demonstration run *)

Example demo_run :
  let '(r, w) := script (demo_env [inr a_mapping; inr an_event; inr a_plain])
                        (initial_world obj ["/usr/lib/python3"]) in
  r = inr tt /\
  sys_path w = ["/srv/app"; "/usr/lib/python3"] /\
  stdout_of (trace w) =
    ["Loaded pipeline from: <SequentialAgent sre_pipeline>";
     "[DEBUG] Starting pipeline run...";
     "[DEBUG] Pipeline run complete. Results:";
     "{'status': 'ok'}"; "{'author': 'sre'}"; "plain"].
Proof. vm_compute. repeat split. Qed.

(** ** Classes *)

Lemma pyclass_eqb_refl (c : pyclass) : pyclass_eqb c c = true.
Proof.
  revert c. fix IH 1. intros [n bs]. simpl. rewrite String.eqb_refl. simpl.
  induction bs as [|b bs IHbs]; [reflexivity|].
  rewrite (IH b). exact IHbs.
Qed.

Lemma issubclass_refl (c : pyclass) : issubclass c c = true.
Proof. destruct c. cbn [issubclass]. now rewrite pyclass_eqb_refl. Qed.

(** A class is a subclass of whatever one of its bases is a subclass of. *)
Lemma issubclass_base (n : string) (bases : list pyclass) (b d : pyclass) :
  In b bases -> issubclass b d = true -> issubclass (Class n bases) d = true.
Proof.
  intros Hin Hb. cbn [issubclass]. apply orb_true_iff. right.
  apply existsb_exists. now exists b.
Qed.

(** ** Traces *)

Lemma add_events_nil {V : Type} (w : world V) : add_events w [] = w.
Proof. destruct w; unfold add_events; simpl. now rewrite app_nil_r. Qed.

Lemma add_events_app {V : Type} (w : world V) (a b : list (event V)) :
  add_events (add_events w a) b = add_events w (a ++ b).
Proof. unfold add_events; simpl. now rewrite app_assoc. Qed.

Lemma stdout_of_app {V : Type} (a b : list (event V)) :
  stdout_of (a ++ b) = stdout_of a ++ stdout_of b.
Proof.
  induction a as [|e a IH]; simpl; [reflexivity|].
  destruct e; simpl; now rewrite IH.
Qed.


Lemma filter_none {A : Type} (f : A -> bool) (l : list A) :
  existsb f l = false -> filter f l = [].
Proof.
  induction l as [|x l IH]; simpl; [reflexivity|].
  intros Hx. apply orb_false_iff in Hx as [Hx Hl].
  rewrite Hx. now apply IH.
Qed.

Lemma existsb_none_of_forallb {A : Type} (f g : A -> bool) (l : list A) :
  (forall x, g x = true -> f x = false) ->
  forallb g l = true -> existsb f l = false.
Proof.
  intros Hfg. induction l as [|x l IH]; simpl; [reflexivity|].
  intros Hx. apply andb_true_iff in Hx as [Hx Hl].
  now rewrite (Hfg x Hx), IH.
Qed.

(** ** The calculus of [emits] *)

Section Emits.

Context {V : Type}.

Lemma emits_ret {A : Type} (a : A) : emits (V := V) (ret a) (inr a) [].
Proof. intros w. simpl. unfold Mret. now rewrite add_events_nil. Qed.

Lemma emits_log (ev : event V) : emits (log ev) (inr tt) [ev].
Proof. intros w. reflexivity. Qed.

Lemma emits_lift {A : Type} (r : outcome A) : emits (V := V) (lift r) r [].
Proof. intros w. unfold lift. now rewrite add_events_nil. Qed.

Lemma emits_raise {A : Type} (e : exn) : emits (V := V) (A := A) (raise e) (inl e) [].
Proof. intros w. unfold raise. now rewrite add_events_nil. Qed.

Lemma emits_bind_ok {A B : Type} (m : M V A) (f : A -> M V B)
    (a : A) (e1 : list (event V)) (r : outcome B) (e2 : list (event V)) :
  emits m (inr a) e1 -> emits (f a) r e2 ->
  emits (x <- m ;; f x) r (e1 ++ e2).
Proof.
  intros Hm Hf w. simpl. unfold Mbind.
  now rewrite Hm, Hf, add_events_app.
Qed.

Lemma emits_bind_raise {A B : Type} (m : M V A) (f : A -> M V B)
    (e : exn) (e1 : list (event V)) :
  emits m (inl e) e1 -> emits (x <- m ;; f x) (inl e) e1.
Proof. intros Hm w. simpl. unfold Mbind. now rewrite Hm. Qed.

Lemma emits_try_ok {A : Type} (body handler : M V A) (cls : pyclass)
    (a : A) (e1 : list (event V)) :
  emits body (inr a) e1 -> emits (try_except body cls handler) (inr a) e1.
Proof. intros Hb w. unfold try_except. now rewrite Hb. Qed.

Lemma emits_try_caught {A : Type} (body handler : M V A) (cls : pyclass)
    (e : exn) (e1 : list (event V)) (r : outcome A) (e2 : list (event V)) :
  emits body (inl e) e1 -> exn_isinstance e cls = true ->
  emits handler r e2 ->
  emits (try_except body cls handler) r (e1 ++ e2).
Proof.
  intros Hb Hc Hh w. unfold try_except.
  now rewrite Hb, Hc, Hh, add_events_app.
Qed.

Lemma emits_try_uncaught {A : Type} (body handler : M V A) (cls : pyclass)
    (e : exn) (e1 : list (event V)) :
  emits body (inl e) e1 -> exn_isinstance e cls = false ->
  emits (try_except body cls handler) (inl e) e1.
Proof. intros Hb Hc w. unfold try_except. now rewrite Hb, Hc. Qed.

(** A statement has one outcome and one list of events. *)
Lemma emits_fun {A : Type} (m : M V A) (r r' : outcome A)
    (evs evs' : list (event V)) :
  emits m r evs -> emits m r' evs' -> r = r' /\ evs = evs'.
Proof.
  intros H1 H2.
  pose proof (H1 (mkWorld [] [])) as E1.
  rewrite (H2 (mkWorld [] [])) in E1.
  unfold add_events in E1; simpl in E1.
  now inversion E1.
Qed.

End Emits.

Create HintDb emits.
#[export] Hint Resolve emits_ret emits_log emits_lift emits_raise : emits.

(** ** Library calls *)

Section Calls.

Context {V : Type} `{PyObject V}.

Lemma pprint_ok (v : V) (s : string) :
  pformat v = inr s -> emits (pprint v) (inr tt) [EvPFormat v; EvStdout s].
Proof. intros Hs. unfold pprint. run_stmt. Qed.

Lemma pprint_raises (v : V) (e : exn) :
  pformat v = inl e -> emits (pprint v) (inl e) [EvPFormat v].
Proof. intros He. unfold pprint. run_stmt. Qed.

Lemma str_emits (v : V) : emits (str v) (py_str v) [EvStr v].
Proof. unfold str. run_stmt. Qed.

Lemma get___dict___emits (v : V) :
  emits (get___dict__ v) (getattr_dict v) [EvGetDict v].
Proof. unfold get___dict__. run_stmt. Qed.

(** The string fallback of the [except] clause. *)
Lemma fallback_ok (v : V) (s : string) :
  py_str v = inr s ->
  emits (s <- str v ;; print s) (inr tt) [EvStr v; EvStdout s].
Proof. intros Hs. unfold str, print. run_stmt. Qed.

Lemma fallback_raises (v : V) (e : exn) :
  py_str v = inl e ->
  emits (s <- str v ;; print s) (inl e) [EvStr v].
Proof. intros He. unfold str, print. run_stmt. Qed.

(** The guarded attempt [pprint(result.__dict__)]. *)
Lemma attempt_ok (v d : V) (s : string) :
  getattr_dict v = inr d -> pformat d = inr s ->
  emits (d <- get___dict__ v ;; pprint d) (inr tt)
        [EvGetDict v; EvPFormat d; EvStdout s].
Proof. intros Hd Hs. unfold get___dict__, pprint. run_stmt. Qed.

Lemma attempt_no_dict (v : V) (e : exn) :
  getattr_dict v = inl e ->
  emits (d <- get___dict__ v ;; pprint d) (inl e) [EvGetDict v].
Proof. intros He. unfold get___dict__, pprint. run_stmt. Qed.

Lemma attempt_unprintable (v d : V) (e : exn) :
  getattr_dict v = inr d -> pformat d = inl e ->
  emits (d <- get___dict__ v ;; pprint d) (inl e) [EvGetDict v; EvPFormat d].
Proof. intros Hd He. unfold get___dict__, pprint. run_stmt. Qed.

End Calls.

(** ** The body of the print loop *)

Section Report.

Context {V : Type} `{PyObject V}.

Lemma report_mapping (v : V) :
  isinstance v dict = true -> report v = pprint v.
Proof. intros Hm. unfold report. now rewrite Hm. Qed.

Lemma report_other (v : V) :
  isinstance v dict = false ->
  report v =
  try_except (d <- get___dict__ v ;; pprint d) Exception
             (s <- str v ;; print s).
Proof. intros Hm. unfold report. now rewrite Hm. Qed.

(** The guarded attempt always ends, in one of three ways. *)
Lemma attempt_cases (v : V) :
  (exists d s, getattr_dict v = inr d /\ pformat d = inr s /\
     emits (d <- get___dict__ v ;; pprint d) (inr tt)
           [EvGetDict v; EvPFormat d; EvStdout s]) \/
  (exists e evs,
     (getattr_dict v = inl e \/
      exists d, getattr_dict v = inr d /\ pformat d = inl e) /\
     stdout_of evs = [] /\ forallb reporting_event evs = true /\
     existsb is_str evs = false /\
     emits (d <- get___dict__ v ;; pprint d) (inl e) evs).
Proof.
  destruct (getattr_dict v) as [e|d] eqn:Hd.
  - right. exists e, [EvGetDict v]. repeat split; auto.
    now apply attempt_no_dict.
  - destruct (pformat d) as [e|s] eqn:Hs.
    + right. exists e, [EvGetDict v; EvPFormat d]. repeat split; eauto.
      now apply attempt_unprintable.
    + left. exists d, s. repeat split; auto. now apply attempt_ok.
Qed.

(** Every round of the loop body ends.  When it ends normally it has
    printed one line, the one the fallback chain selects; when it raises
    it has printed nothing. *)
Lemma report_cases (v : V) :
  exists r evs,
    emits (report v) r evs /\
    forallb reporting_event evs = true /\
    match r with
    | inr _ => exists s, render_spec v = inr s /\ stdout_of evs = [s]
    | inl _ => stdout_of evs = []
    end.
Proof.
  unfold render_spec.
  destruct (isinstance v dict) eqn:Hm.
  - rewrite (report_mapping _ Hm). unfold isinstance in Hm. rewrite Hm.
    destruct (pformat v) as [e|s] eqn:Hs.
    + exists (inl e), [EvPFormat v]. repeat split. now apply pprint_raises.
    + exists (inr tt), [EvPFormat v; EvStdout s]. repeat split.
      * now apply pprint_ok.
      * now exists s.
  - rewrite (report_other _ Hm). unfold isinstance in Hm. rewrite Hm.
    destruct (attempt_cases v) as [(d & s & Hd & Hs & Ha)|(e & evs & Hc & Ho & Hr & _ & Ha)].
    + exists (inr tt), [EvGetDict v; EvPFormat d; EvStdout s]. repeat split.
      * now apply emits_try_ok.
      * exists s. now rewrite Hd, Hs.
    + destruct (exn_isinstance e Exception) eqn:He.
      * destruct (py_str v) as [e'|s] eqn:Hs.
        -- exists (inl e'), (evs ++ [EvStr v]). repeat split.
           ++ eapply emits_try_caught; eauto. now apply fallback_raises.
           ++ rewrite forallb_app, Hr. reflexivity.
           ++ rewrite stdout_of_app, Ho. reflexivity.
        -- exists (inr tt), (evs ++ [EvStr v; EvStdout s]). repeat split.
           ++ eapply emits_try_caught; eauto. now apply fallback_ok.
           ++ rewrite forallb_app, Hr. reflexivity.
           ++ exists s. rewrite stdout_of_app, Ho. split; [|reflexivity].
              destruct Hc as [Hc|(d & Hd & Hp)].
              ** now rewrite Hc.
              ** now rewrite Hd, Hp.
      * exists (inl e), evs. repeat split; auto.
        now apply emits_try_uncaught.
Qed.

(** *** The loop *)

Lemma for_in_stop (body : V -> M V unit) :
  emits (for_in [] body) (inr tt) [EvNext].
Proof. simpl. auto with emits. Qed.

Lemma for_in_raise (e : exn) (gen : list (outcome V)) (body : V -> M V unit) :
  emits (for_in (inl e :: gen) body) (inl e) [EvNext].
Proof. simpl. unfold raise. run_stmt. Qed.

Lemma for_in_step (x : V) (gen : list (outcome V)) (body : V -> M V unit)
    (e1 : list (event V)) (r : outcome unit) (e2 : list (event V)) :
  emits (body x) (inr tt) e1 -> emits (for_in gen body) r e2 ->
  emits (for_in (inr x :: gen) body) r (EvNext :: e1 ++ e2).
Proof.
  intros Hb Hl w. cbn [for_in bind Monad_M]. unfold Mbind.
  rewrite (emits_log EvNext w). cbv beta iota.
  rewrite Hb. cbv beta iota.
  now rewrite Hl, !add_events_app.
Qed.

Lemma for_in_abort (x : V) (gen : list (outcome V)) (body : V -> M V unit)
    (e : exn) (e1 : list (event V)) :
  emits (body x) (inl e) e1 ->
  emits (for_in (inr x :: gen) body) (inl e) (EvNext :: e1).
Proof.
  intros Hb w. cbn [for_in bind Monad_M]. unfold Mbind.
  rewrite (emits_log EvNext w). cbv beta iota.
  now rewrite Hb, add_events_app.
Qed.

(** The loop over any finite stream ends, and all its events are events
    of the print loop. *)
Lemma for_in_report_total (gen : list (outcome V)) :
  exists r evs,
    emits (for_in gen report) r evs /\ forallb reporting_event evs = true.
Proof.
  induction gen as [|[e|x] gen IH].
  - exists (inr tt), [EvNext]. split; [apply for_in_stop | reflexivity].
  - exists (inl e), [EvNext]. split; [apply for_in_raise | reflexivity].
  - destruct (report_cases x) as (r & e1 & Hr & Hf & _).
    destruct r as [e|[]].
    + exists (inl e), (EvNext :: e1). split; [now apply for_in_abort | exact Hf].
    + destruct IH as (r2 & e2 & Hl & Hf2).
      exists r2, (EvNext :: e1 ++ e2). split; [now apply for_in_step|].
      simpl. now rewrite forallb_app, Hf, Hf2.
Qed.

End Report.

(** ** The script, step by step *)

Section ScriptRuns.

Context {V : Type} `{PyObject V}.
Variable env : Env V.
Variable path : list string.

Lemma module_top_run :
  module_top env (initial_world V path) =
  (inr tt,
   {| sys_path := env_current_dir env :: path;
      trace := module_top_events env |}).
Proof. reflexivity. Qed.

(** Loaded as a module, the script stops after its top level. *)
Lemma script_imported :
  String.eqb (env_name env) "__main__" = false ->
  script env (initial_world V path) =
  (inr tt,
   {| sys_path := env_current_dir env :: path;
      trace := module_top_events env |}).
Proof.
  intros Hname. unfold script.
  cbn [bind Monad_M]. unfold Mbind. rewrite module_top_run, Hname.
  reflexivity.
Qed.

(** A refused session ends the script inside [asyncio.run]. *)
Lemma script_refused (e : exn) :
  env_name env = "__main__" ->
  svc_create_session (env_session_service env) "u1" "sess1" "agents" = inl e ->
  script env (initial_world V path) = (inl e, world_at_refusal env path).
Proof.
  intros Hname Hsvc. unfold script.
  cbn [bind Monad_M]. unfold Mbind. rewrite module_top_run, Hname.
  cbn [String.eqb Ascii.eqb Bool.eqb].
  unfold main_block, InMemorySessionService, asyncio_run, create_session.
  cbn [bind ret Monad_M co_body]. unfold Mbind, Mret, log, lift.
  cbn [sys_path trace]. rewrite Hsvc.
  unfold world_at_refusal, session_request_events.
  now rewrite <- !app_assoc.
Qed.

(** With the session created, the script gets to the print loop. *)
Lemma script_runs_loop (session : Session) :
  env_name env = "__main__" ->
  svc_create_session (env_session_service env) "u1" "sess1" "agents"
    = inr session ->
  script env (initial_world V path) =
  for_in (env_results env "u1" "sess1" run_message) report
         (world_before_loop env path).
Proof.
  intros Hname Hsvc. unfold script.
  cbn [bind Monad_M]. unfold Mbind. rewrite module_top_run, Hname.
  cbn [String.eqb Ascii.eqb Bool.eqb].
  unfold main_block, InMemorySessionService, asyncio_run, create_session,
    Runner, runner_run, print.
  cbn [bind ret Monad_M co_body]. unfold Mbind, Mret, log, lift.
  cbn [sys_path trace]. rewrite Hsvc.
  unfold world_before_loop, session_request_events, launch_events,
    UserContent, run_message.
  now rewrite <- !app_assoc.
Qed.

End ScriptRuns.

(** ** The print loop *)

Section Loop.

Context {V : Type} `{PyObject V}.

(** From a run of a statement to the events it appended. *)
Lemma emits_run {A : Type} (m : M V A) (r r' : outcome A)
    (evs : list (event V)) (w w' : world V) :
  emits m r evs -> m w = (r', w') -> r' = r /\ w' = add_events w evs.
Proof. intros He Hr. rewrite He in Hr. now inversion Hr. Qed.

(** The loop over the items before a raising point and the loop over
    the stream with the raising point do the same up to that point. *)
Lemma loop_until_raise (pre : list V) (e : exn) (rest : list (outcome V))
    (w w1 : world V) :
  for_in (map inr pre) report w = (inr tt, w1) ->
  for_in (map inr pre ++ inl e :: rest) report w = (inl e, w1).
Proof.
  revert w. induction pre as [|x pre IH]; intros w Hrun.
  - simpl in *. rewrite (for_in_raise e rest report w).
    rewrite (for_in_stop report w) in Hrun. now inversion Hrun.
  - simpl map in *. simpl app.
    destruct (report_cases x) as (r1 & e1 & Hr & _).
    destruct r1 as [e'|[]].
    + rewrite (for_in_abort x (map inr pre) report _ _ Hr w) in Hrun.
      discriminate.
    + cbn [for_in bind Monad_M] in *. unfold Mbind in *.
      rewrite (emits_log EvNext w) in *. cbv beta iota in *.
      rewrite Hr in *. cbv beta iota in *.
      now apply IH.
Qed.

(** C3. If the result stream raises partway through the iteration, the
    loop does not catch the exception: it leaves the loop as it was
    raised, and the world is the one the loop over the items before the
    raising point leaves, whatever the stream would have produced
    afterwards; nothing after the raising point is printed.  The loop is
    the last statement of the script, so a run of the script whose
    result stream is this one ends with that exception. *)
Theorem stream_exception_propagates
    (pre : list V) (e : exn) (rest : list (outcome V)) (w w1 : world V) :
  for_in (map inr pre) report w = (inr tt, w1) ->
  for_in (map inr pre ++ inl e :: rest) report w = (inl e, w1) /\
  (forall rest' : list (outcome V),
     for_in (map inr pre ++ inl e :: rest') report w =
     for_in (map inr pre ++ inl e :: rest) report w) /\
  (forall (env : Env V) (path : list string) (session : Session),
     env_name env = "__main__" ->
     svc_create_session (env_session_service env) "u1" "sess1" "agents"
       = inr session ->
     env_results env "u1" "sess1" run_message = map inr pre ++ inl e :: rest ->
     w = world_before_loop env path ->
     script env (initial_world V path) = (inl e, w1)).
Proof.
  intros Hrun. split; [now apply loop_until_raise|]. split.
  - intros rest'. now rewrite !(loop_until_raise pre _ _ _ _ Hrun).
  - intros env path session Hname Hsvc Hres ->.
    rewrite (script_runs_loop env path session Hname Hsvc), Hres.
    now apply loop_until_raise.
Qed.

(** C9. For every result item that is an instance of [dict], instances
    of subclasses of [dict] included, the loop body is the mapping
    branch: it behaves as [pprint(result)], and none of its events
    consults the attribute dictionary or the string form. *)
Theorem mapping_takes_mapping_branch (v : V) (w : world V) :
  issubclass (type_of v) dict = true ->
  report v w = pprint v w /\
  exists r evs,
    report v w = (r, add_events w evs) /\
    existsb consults_dict_or_str evs = false.
Proof.
  intros Hm. rewrite (report_mapping v Hm). split; [reflexivity|].
  destruct (pformat v) as [e|s] eqn:Hs.
  - exists (inl e), [EvPFormat v]. split; [now apply pprint_raises | reflexivity].
  - exists (inr tt), [EvPFormat v; EvStdout s].
    split; [now apply pprint_ok | reflexivity].
Qed.

(** A failed attempt at the attribute dictionary, seen from the inputs. *)
Lemma attempt_raises (v : V) (e : exn) :
  (getattr_dict v = inl e \/
   exists d, getattr_dict v = inr d /\ pformat d = inl e) ->
  exists evs,
    emits (d <- get___dict__ v ;; pprint d) (inl e) evs /\
    stdout_of evs = [] /\ existsb is_str evs = false /\
    existsb is_next evs = false.
Proof.
  intros [He|(d & Hd & He)].
  - exists [EvGetDict v]. repeat split. now apply attempt_no_dict.
  - exists [EvGetDict v; EvPFormat d]. repeat split.
    now apply attempt_unprintable.
Qed.

(** C10. The fallback catches only [Exception]: when the rendering of
    the attribute dictionary of a non-mapping item raises an exception
    that is not an instance of [Exception], the exception leaves the
    loop as raised; the string form is not asked for, nothing is
    printed, and the generator is not asked for another item. *)
Theorem non_exception_escapes_fallback
    (v : V) (e : exn) (rest : list (outcome V)) (w : world V) :
  issubclass (type_of v) dict = false ->
  (getattr_dict v = inl e \/
   exists d, getattr_dict v = inr d /\ pformat d = inl e) ->
  exn_isinstance e Exception = false ->
  exists evs,
    for_in (inr v :: rest) report w = (inl e, add_events w evs) /\
    existsb is_str evs = false /\
    stdout_of evs = [] /\
    length (filter is_next evs) = 1.
Proof.
  intros Hm Hfail Hcls.
  destruct (attempt_raises v e Hfail) as (evs & Ha & Hout & Hstr & Hnext).
  exists (EvNext :: evs). split.
  - apply for_in_abort. rewrite (report_other v Hm).
    now apply emits_try_uncaught.
  - repeat split; auto. simpl. now rewrite (filter_none _ _ Hnext).
Qed.

(** C2, amended. A failure of class [Exception] while the attribute
    dictionary of a non-mapping item is obtained or pretty-printed does
    not abort the iteration, provided the string form of the item can be
    computed: the item is printed through its string form and the loop
    goes on with the remaining items. *)
Theorem caught_failure_does_not_abort
    (v : V) (e : exn) (s : string) (rest : list (outcome V)) :
  issubclass (type_of v) dict = false ->
  (getattr_dict v = inl e \/
   exists d, getattr_dict v = inr d /\ pformat d = inl e) ->
  exn_isinstance e Exception = true ->
  py_str v = inr s ->
  continues_after v rest /\
  forall w : world V,
    fst (report v w) = inr tt /\
    stdout_of (trace (snd (report v w))) = stdout_of (trace w) ++ [s].
Proof.
  intros Hm Hfail Hcls Hs.
  destruct (attempt_raises v e Hfail) as (evs & Ha & Hout & _ & _).
  assert (Hrep : emits (report v) (inr tt) (evs ++ [EvStr v; EvStdout s])).
  { rewrite (report_other v Hm).
    eapply emits_try_caught; eauto. now apply fallback_ok. }
  split.
  - intros w. exists (add_events (add_events w [EvNext]) (evs ++ [EvStr v; EvStdout s])).
    split; [apply Hrep|].
    cbn [for_in bind Monad_M]. unfold Mbind.
    rewrite (emits_log EvNext w). cbv beta iota.
    now rewrite Hrep.
  - intros w. rewrite Hrep. split; [reflexivity|].
    unfold add_events; simpl.
    now rewrite !stdout_of_app, Hout.
Qed.

End Loop.

(** ** Lists of events *)

Lemma split_after_prefix {A : Type} (P : A -> Prop) (pre rest l1 : list A)
    (x : A) (l2 : list A) :
  Forall (fun y => ~ P y) pre -> P x ->
  l1 ++ x :: l2 = pre ++ rest ->
  exists l, l1 = pre ++ l /\ l ++ x :: l2 = rest.
Proof.
  revert l1. induction pre as [|p pre IH]; intros l1 Hpre Hx Heq.
  - exists l1. now split.
  - inversion Hpre as [|? ? Hp Hpre']; subst.
    destruct l1 as [|y l1]; simpl in Heq; inversion Heq; subst.
    + contradiction.
    + destruct (IH l1 Hpre' Hx H1) as (l & -> & Hl).
      exists l. now split.
Qed.




(** ** Every run of the script *)

Section ScriptCases.

Context {V : Type} `{PyObject V}.
Variable env : Env V.
Variable path : list string.

Lemma script_cases :
  script_case env path (fst (script env (initial_world V path)))
              (snd (script env (initial_world V path))).
Proof.
  destruct (String.eqb (env_name env) "__main__") eqn:Hname.
  - apply String.eqb_eq in Hname.
    destruct (svc_create_session (env_session_service env) "u1" "sess1" "agents")
      as [e|session] eqn:Hsvc.
    + rewrite (script_refused env path e Hname Hsvc). now apply RunRefused.
    + rewrite (script_runs_loop env path session Hname Hsvc).
      destruct (for_in_report_total (env_results env "u1" "sess1" run_message))
        as (r & evs & Hl & Hf).
      rewrite Hl. now apply RunLooped with session.
  - rewrite (script_imported env path Hname). now apply RunImported.
Qed.

End ScriptCases.

(** ** The bootstrap *)

Section Bootstrap.

Context {V : Type} `{PyObject V}.
Variable env : Env V.
Variable path : list string.

(** The events of the print loop are none of the calls to collaborators. *)
Lemma loop_events_are_no_calls (evs : list (event V)) :
  forallb reporting_event evs = true ->
  existsb is_create_session evs = false /\
  existsb is_new_runner evs = false /\
  existsb is_runner_run evs = false.
Proof.
  intros Hf. repeat split;
    (eapply existsb_none_of_forallb; [|exact Hf]);
    intros [] Hx; simpl in *; congruence.
Qed.

(** C4. If [create_session] raises, the script ends with that exception
    as raised, and it ends before the runner: no runner is constructed,
    [runner.run] is not called, no result is asked for, and no event
    belongs to a step after session creation. *)
Theorem refused_session_stops_before_runner (e : exn) :
  env_name env = "__main__" ->
  svc_create_session (env_session_service env) "u1" "sess1" "agents" = inl e ->
  script_outcome env path = inl e /\
  existsb is_new_runner (script_trace env path) = false /\
  existsb is_runner_run (script_trace env path) = false /\
  existsb is_next (script_trace env path) = false /\
  Forall (fun s => step_rank s <= step_rank SessionCreation)
         (steps_of (script_trace env path)).
Proof.
  intros Hname Hsvc. unfold script_outcome, script_trace, script_sys_path.
  rewrite (script_refused env path e Hname Hsvc).
  repeat split. simpl. repeat constructor.
Qed.

(** C5. Running the script calls [create_session] exactly once, with
    user "u1", session "sess1" and application "agents", and that call
    comes before any call of [runner.run]. *)
Theorem create_session_called_once :
  env_name env = "__main__" ->
  filter is_create_session (script_trace env path)
    = [EvCreateSession "u1" "sess1" "agents"] /\
  exists t1 t2,
    script_trace env path = t1 ++ EvCreateSession "u1" "sess1" "agents" :: t2 /\
    existsb is_runner_run t1 = false.
Proof.
  intros Hname. unfold script_outcome, script_trace, script_sys_path.
  destruct (script_cases env path) as [Himp|e _ Hsvc|session r evs _ Hsvc Hl Hf].
  - rewrite Hname in Himp. discriminate.
  - split; [reflexivity|].
    exists (module_top_events env ++ [EvNewSessionService; EvAsyncioRunEnter]), [].
    split; reflexivity.
  - destruct (loop_events_are_no_calls evs Hf) as (Hc & _ & _).
    split.
    + unfold add_events, world_before_loop; cbn [trace].
      rewrite !filter_app, (filter_none _ _ Hc). reflexivity.
    + exists (module_top_events env ++ [EvNewSessionService; EvAsyncioRunEnter]),
             (launch_events env ++ evs).
      split; [|reflexivity].
      unfold add_events, world_before_loop, session_request_events; cbn [trace].
      now rewrite <- !app_assoc.
Qed.

(** C7. The runner is called with one message, the user content whose
    only part is the text "run": the calls of [runner.run] in a run of
    the script are that one call when the session was created, and none
    when it was refused. *)
Theorem runner_gets_one_run_message :
  env_name env = "__main__" ->
  filter is_runner_run (script_trace env path) =
    if is_ok (svc_create_session (env_session_service env) "u1" "sess1" "agents")
    then [EvRunnerRun "u1" "sess1"
            {| role := "user"; parts := [{| text := "run" |}] |}]
    else [].
Proof.
  intros Hname. unfold script_outcome, script_trace, script_sys_path.
  destruct (script_cases env path) as [Himp|e _ Hsvc|session r evs _ Hsvc Hl Hf].
  - rewrite Hname in Himp. discriminate.
  - rewrite Hsvc. reflexivity.
  - rewrite Hsvc. destruct (loop_events_are_no_calls evs Hf) as (_ & _ & Hr).
    unfold add_events, world_before_loop; cbn [trace].
    rewrite !filter_app, (filter_none _ _ Hr). reflexivity.
Qed.

(** The search path after the script. *)
Lemma sys_path_after_script :
  script_sys_path env path = env_current_dir env :: path.
Proof.
  unfold script_outcome, script_trace, script_sys_path.
  destruct (script_cases env path); reflexivity.
Qed.



End Bootstrap.

(** ** The properties on the doubles *)

(** A stream that raises after two items. *)
Lemma stream_exception_propagates_demo :
  let pre := [a_mapping; an_event] in
  let e := Exn RuntimeError "pipeline failed" in
  let rest := [inr a_plain] in
  let env := demo_env (map inr pre ++ inl e :: rest) in
  let path := ["/usr/lib/python3"] in
  let w := world_before_loop env path in
  let w1 := snd (for_in (map inr pre) report w) in
  for_in (map inr pre) report w = (inr tt, w1) /\
  for_in (map inr pre ++ inl e :: rest) report w = (inl e, w1) /\
  script env (initial_world obj path) = (inl e, w1) /\
  stdout_of (trace w1) =
    ["Loaded pipeline from: <SequentialAgent sre_pipeline>";
     "[DEBUG] Starting pipeline run...";
     "[DEBUG] Pipeline run complete. Results:";
     "{'status': 'ok'}"; "{'author': 'sre'}"].
Proof.
  cbv zeta.
  assert (Hpre :
    for_in (map inr [a_mapping; an_event]) report
      (world_before_loop
         (demo_env (map inr [a_mapping; an_event]
                    ++ inl (Exn RuntimeError "pipeline failed")
                    :: [inr a_plain]))
         ["/usr/lib/python3"])
    = (inr tt,
       snd (for_in (map inr [a_mapping; an_event]) report
              (world_before_loop
                 (demo_env (map inr [a_mapping; an_event]
                            ++ inl (Exn RuntimeError "pipeline failed")
                            :: [inr a_plain]))
                 ["/usr/lib/python3"])))).
  { vm_compute; reflexivity. }
  destruct (stream_exception_propagates [a_mapping; an_event]
              (Exn RuntimeError "pipeline failed") [inr a_plain] _ _ Hpre)
    as (Hloop & _ & Hscript).
  split; [exact Hpre|]. split; [exact Hloop|]. split.
  - apply (Hscript
             (demo_env (map inr [a_mapping; an_event]
                        ++ inl (Exn RuntimeError "pipeline failed")
                        :: [inr a_plain]))
             ["/usr/lib/python3"] (mkSession "u1" "sess1" "agents"));
      reflexivity.
  - vm_compute; reflexivity.
Defined.

(** An instance of a subclass of [dict] that has an attribute dictionary
    and a string form of its own. *)
Lemma mapping_takes_mapping_branch_demo :
  let v := a_dict_subclass_instance in
  let w := initial_world obj [] in
  issubclass (type_of v) dict = true /\
  report v w = pprint v w /\
  exists r evs,
    report v w = (r, add_events w evs) /\
    existsb consults_dict_or_str evs = false.
Proof.
  cbv zeta. split; [reflexivity|].
  apply (mapping_takes_mapping_branch a_dict_subclass_instance
           (initial_world obj [])).
  reflexivity.
Defined.

(** An item whose [__dict__] raises [KeyboardInterrupt]. *)
Lemma non_exception_escapes_fallback_demo :
  let v := an_interrupting in
  let e := Exn KeyboardInterrupt "" in
  let rest := [inr a_plain] in
  let w := initial_world obj [] in
  exn_isinstance e Exception = false /\
  exn_isinstance e BaseException = true /\
  exists evs,
    for_in (inr v :: rest) report w = (inl e, add_events w evs) /\
    existsb is_str evs = false /\
    stdout_of evs = [] /\
    length (filter is_next evs) = 1.
Proof.
  cbv zeta. split; [reflexivity|]. split; [reflexivity|].
  apply (non_exception_escapes_fallback an_interrupting
           (Exn KeyboardInterrupt "") [inr a_plain] (initial_world obj [])).
  - reflexivity.
  - left. reflexivity.
  - reflexivity.
Defined.

(** An item whose attribute dictionary cannot be pretty-printed. *)
Lemma caught_failure_does_not_abort_demo :
  let v := an_unprintable_event in
  let rest := [inr a_plain] in
  exn_isinstance (Exn ValueError "broken repr") Exception = true /\
  continues_after v rest /\
  forall w : world obj,
    fst (report v w) = inr tt /\
    stdout_of (trace (snd (report v w))) = stdout_of (trace w) ++ ["event#1"].
Proof.
  cbv zeta. split; [reflexivity|].
  apply (caught_failure_does_not_abort an_unprintable_event
           (Exn ValueError "broken repr") "event#1" [inr a_plain]).
  - reflexivity.
  - right. eexists. split; reflexivity.
  - reflexivity.
  - reflexivity.
Defined.

(** C2 as stated fails: a mapping whose [repr] raises is printed by the
    unguarded [pprint(result)]; the exception leaves the loop and the
    item after it is never asked for. *)
Lemma print_failure_of_mapping_aborts :
  for_in [inr a_broken_mapping; inr a_plain] report (initial_world obj [])
    = (inl (Exn ValueError "broken repr"),
       {| sys_path := [];
          trace := [EvNext; EvPFormat a_broken_mapping] |}) /\
  ~ (forall (v : obj) (rest : list (outcome obj)), continues_after v rest).
Proof.
  split; [vm_compute; reflexivity|].
  intros Hall.
  destruct (Hall a_broken_mapping [inr a_plain] (initial_world obj []))
    as (w1 & Hrep & _).
  vm_compute in Hrep. discriminate Hrep.
Qed.

(** A session service that refuses the session. *)
Lemma refused_session_stops_before_runner_demo :
  let env := failing_env [inr a_mapping] in
  let path := ["/usr/lib/python3"] in
  script_outcome env path = inl (Exn ValueError "session exists") /\
  existsb is_new_runner (script_trace env path) = false /\
  existsb is_runner_run (script_trace env path) = false /\
  existsb is_next (script_trace env path) = false /\
  Forall (fun s => step_rank s <= step_rank SessionCreation)
         (steps_of (script_trace env path)).
Proof.
  cbv zeta.
  apply (refused_session_stops_before_runner (failing_env [inr a_mapping])
           ["/usr/lib/python3"] (Exn ValueError "session exists"));
    reflexivity.
Defined.

Lemma create_session_called_once_demo :
  let env := demo_env [inr a_mapping; inr an_event; inr a_plain] in
  let path := ["/usr/lib/python3"] in
  filter is_create_session (script_trace env path)
    = [EvCreateSession "u1" "sess1" "agents"] /\
  exists t1 t2,
    script_trace env path = t1 ++ EvCreateSession "u1" "sess1" "agents" :: t2 /\
    existsb is_runner_run t1 = false.
Proof.
  cbv zeta.
  apply (create_session_called_once
           (demo_env [inr a_mapping; inr an_event; inr a_plain])
           ["/usr/lib/python3"]).
  reflexivity.
Defined.

Lemma runner_gets_one_run_message_demo :
  let env := demo_env [inr a_mapping; inr an_event; inr a_plain] in
  let path := ["/usr/lib/python3"] in
  filter is_runner_run (script_trace env path) =
    if is_ok (svc_create_session (env_session_service env) "u1" "sess1" "agents")
    then [EvRunnerRun "u1" "sess1"
            {| role := "user"; parts := [{| text := "run" |}] |}]
    else [].
Proof.
  cbv zeta.
  apply (runner_gets_one_run_message
           (demo_env [inr a_mapping; inr an_event; inr a_plain])
           ["/usr/lib/python3"]).
  reflexivity.
Defined.

(** The steps of the demonstration run. *)
Example steps_in_order_demo :
  steps_of (script_trace (demo_env [inr a_mapping; inr a_plain])
                         ["/usr/lib/python3"])
  = repeat EnvironmentSetup 13 ++ repeat SessionCreation 4
    ++ [RunnerConstruction; Execution] ++ repeat ResultReporting 6.
Proof. vm_compute. reflexivity. Qed.

(** * Further properties of the print loop *)

Section LoopOutcome.

Context {V : Type} `{PyObject V}.

(** The guarded attempt, by its exception. *)
Lemma attempt_exn_spec (v : V) :
  match attempt_exn v with
  | Some e => attempt_fails v e
  | None => exists d s, getattr_dict v = inr d /\ pformat d = inr s
  end.
Proof.
  unfold attempt_exn, attempt_fails.
  destruct (getattr_dict v) as [e|d]; [now left|].
  destruct (pformat d) as [e|s] eqn:Hs; [right|]; eauto.
Qed.

Lemma attempt_fails_exn (v : V) (e : exn) :
  attempt_fails v e -> attempt_exn v = Some e.
Proof.
  unfold attempt_exn. intros [He|(d & Hd & He)].
  - now rewrite He.
  - now rewrite Hd, He.
Qed.

(** What one round of the loop body does, by the answers of the item:
    its outcome is the one [report_exn] names; it prints the line of
    the fallback chain when it ends normally and nothing otherwise; and
    it asks for the string form only after a caught failure of the
    attempt on the attribute dictionary. *)
Lemma report_exn_spec (v : V) :
  exists evs,
    emits (report v) (exn_outcome (report_exn v)) evs /\
    forallb reporting_event evs = true /\
    existsb is_next evs = false /\
    match report_exn v with
    | None => exists s, render_spec v = inr s /\ stdout_of evs = [s]
    | Some _ => stdout_of evs = []
    end /\
    (existsb is_str evs = true ->
     issubclass (type_of v) dict = false /\
     exists e, attempt_fails v e /\ exn_isinstance e Exception = true).
Proof.
  unfold report_exn, render_spec.
  destruct (issubclass (type_of v) dict) eqn:Hm.
  - rewrite (report_mapping v Hm).
    destruct (pformat v) as [e|s] eqn:Hs.
    + exists [EvPFormat v].
      refine (conj _ (conj _ (conj _ (conj _ _)))); try reflexivity.
      * now apply pprint_raises.
      * discriminate.
    + exists [EvPFormat v; EvStdout s].
      refine (conj _ (conj _ (conj _ (conj _ _)))); try reflexivity.
      * now apply pprint_ok.
      * now exists s.
      * discriminate.
  - rewrite (report_other v Hm).
    pose proof (attempt_exn_spec v) as Ha.
    destruct (attempt_exn v) as [e|].
    + destruct (attempt_raises v e Ha) as (evs & He & Hout & Hstr & Hnext).
      assert (Hrep : forallb reporting_event evs = true).
      { destruct Ha as [Hd|(d & Hd & Hp)].
        - pose proof (emits_fun _ _ _ _ _ He (attempt_no_dict v e Hd)) as [_ ->].
          reflexivity.
        - pose proof (emits_fun _ _ _ _ _ He (attempt_unprintable v d e Hd Hp))
            as [_ ->].
          reflexivity. }
      assert (Hline : forall s, py_str v = inr s ->
                match getattr_dict v with
                | inr d => match pformat d with
                           | inr s0 => inr s0
                           | inl _ => py_str v
                           end
                | inl _ => py_str v
                end = inr s).
      { intros s Hs. destruct Ha as [Hd|(d & Hd & Hp)].
        - now rewrite Hd.
        - now rewrite Hd, Hp. }
      destruct (exn_isinstance e Exception) eqn:Hcls.
      * destruct (py_str v) as [e'|s] eqn:Hs.
        -- exists (evs ++ [EvStr v]).
           refine (conj _ (conj _ (conj _ (conj _ _)))).
           ++ eapply emits_try_caught; eauto. now apply fallback_raises.
           ++ now rewrite forallb_app, Hrep.
           ++ now rewrite existsb_app, Hnext.
           ++ now rewrite stdout_of_app, Hout.
           ++ eauto.
        -- exists (evs ++ [EvStr v; EvStdout s]).
           refine (conj _ (conj _ (conj _ (conj _ _)))).
           ++ eapply emits_try_caught; eauto. now apply fallback_ok.
           ++ now rewrite forallb_app, Hrep.
           ++ now rewrite existsb_app, Hnext.
           ++ exists s. split; [now apply Hline|].
              now rewrite stdout_of_app, Hout.
           ++ eauto.
      * exists evs.
        refine (conj _ (conj _ (conj _ (conj _ _)))); auto.
        -- now apply emits_try_uncaught.
        -- rewrite Hstr. discriminate.
    + destruct Ha as (d & s & Hd & Hs).
      exists [EvGetDict v; EvPFormat d; EvStdout s].
      refine (conj _ (conj _ (conj _ (conj _ _)))); try reflexivity.
      * apply emits_try_ok. now apply attempt_ok.
      * exists s. now rewrite Hd, Hs.
      * discriminate.
Qed.

(** The loop, by the exception of its first failing round. *)
Lemma loop_exn_spec (gen : list (outcome V)) :
  exists evs,
    emits (for_in gen report) (exn_outcome (loop_exn gen)) evs /\
    forallb reporting_event evs = true /\
    length (stdout_of evs) <= length gen.
Proof.
  induction gen as [|[e|x] gen IH].
  - exists [EvNext].
    refine (conj _ (conj _ _)); [apply for_in_stop | reflexivity | simpl; lia].
  - exists [EvNext].
    refine (conj _ (conj _ _)); [apply for_in_raise | reflexivity | simpl; lia].
  - destruct (report_exn_spec x) as (e1 & Hr & Hf & _ & Hout & _).
    cbn [loop_exn entry_exn]. destruct (report_exn x) as [e|].
    + exists (EvNext :: e1). refine (conj _ (conj _ _)).
      * now apply for_in_abort.
      * exact Hf.
      * cbn [stdout_of]. rewrite Hout. simpl. lia.
    + destruct IH as (e2 & Hl & Hf2 & Hlen).
      destruct Hout as (s & _ & Hout).
      exists (EvNext :: e1 ++ e2). refine (conj _ (conj _ _)).
      * now apply for_in_step.
      * simpl. now rewrite forallb_app, Hf, Hf2.
      * cbn [stdout_of]. rewrite stdout_of_app, Hout. simpl. lia.
Qed.

Lemma loop_exn_none (gen : list (outcome V)) :
  loop_exn gen = None <-> Forall (fun o => entry_exn o = None) gen.
Proof.
  induction gen as [|o gen IH]; simpl.
  - split; [constructor | reflexivity].
  - destruct (entry_exn o) as [e|] eqn:Ho.
    + split; [discriminate|]. intros Hall. inversion Hall; congruence.
    + rewrite IH. split; [now constructor | intros Hall; now inversion Hall].
Qed.

(** X1. The print loop ends normally exactly when no round fails: every
    entry of the stream is an item, not a raised exception, and no
    exception leaves the loop body for any of the items. *)
Theorem loop_ends_normally_iff (gen : list (outcome V)) (w : world V) :
  fst (for_in gen report w) = inr tt <->
  Forall (fun o => entry_exn o = None) gen.
Proof.
  destruct (loop_exn_spec gen) as (evs & Hl & _).
  rewrite Hl, <- loop_exn_none. cbn [fst].
  destruct (loop_exn gen); simpl; split; congruence.
Qed.

(** The rounds before the first failing one. *)
Lemma loop_first_failure (items : list V) (o : outcome V) (e : exn) :
  forallb printable items = true ->
  entry_exn o = Some e ->
  exists evs,
    (forall rest, emits (for_in (map inr items ++ o :: rest) report) (inl e) evs) /\
    Forall2 (fun v line => render_spec v = inr line) items (stdout_of evs) /\
    length (filter is_next evs) = S (length items).
Proof.
  intros Hitems Ho. induction items as [|x items IH].
  - destruct o as [e0|v]; cbn [entry_exn] in Ho.
    + inversion Ho; subst. exists [EvNext]. refine (conj _ (conj _ _)).
      * intros rest. apply for_in_raise.
      * constructor.
      * reflexivity.
    + destruct (report_exn_spec v) as (e1 & Hr & _ & Hnext & Hout & _).
      rewrite Ho in Hr, Hout. exists (EvNext :: e1).
      refine (conj _ (conj _ _)).
      * intros rest. now apply for_in_abort.
      * cbn [stdout_of]. rewrite Hout. constructor.
      * simpl. now rewrite (filter_none _ _ Hnext).
  - cbn [forallb] in Hitems. apply andb_true_iff in Hitems as [Hx Hitems].
    destruct (IH Hitems) as (e2 & Hl & Hlines & Hcount).
    destruct (report_exn_spec x) as (e1 & Hr & _ & Hnext & Hout & _).
    unfold printable in Hx. destruct (report_exn x); [discriminate|].
    destruct Hout as (s & Hs & Hout).
    exists (EvNext :: e1 ++ e2). refine (conj _ (conj _ _)).
    + intros rest. cbn [map app]. apply for_in_step; [exact Hr | apply Hl].
    + cbn [stdout_of]. rewrite stdout_of_app, Hout. now constructor.
    + simpl. rewrite filter_app, (filter_none _ _ Hnext). simpl.
      now rewrite Hcount.
Qed.

(** X2. The loop stops at the first round that fails: when the items
    before it are printed without failure, the loop ends with the
    exception of that round, has printed exactly the renderings of the
    items before it, and has asked the generator for nothing beyond the
    failing round, whatever the stream holds afterwards. *)
Theorem loop_stops_at_first_failure
    (items : list V) (o : outcome V) (e : exn) :
  forallb printable items = true ->
  entry_exn o = Some e ->
  exists evs,
    (forall (rest : list (outcome V)) (w : world V),
       for_in (map inr items ++ o :: rest) report w
       = (inl e, add_events w evs)) /\
    Forall2 (fun v line => render_spec v = inr line) items (stdout_of evs) /\
    length (filter is_next evs) = S (length items).
Proof.
  intros Hitems Ho.
  destruct (loop_first_failure items o e Hitems Ho) as (evs & Hl & Hlines & Hn).
  exists evs. refine (conj _ (conj Hlines Hn)). intros rest w. apply Hl.
Qed.

(** The loop over items that can all be printed. *)
Lemma printable_loop (items : list V) :
  forallb printable items = true ->
  exists evs,
    emits (for_in (map inr items) report) (inr tt) evs /\
    Forall2 (fun v output => render_spec v = inr output)
            items (stdout_of evs) /\
    length (filter is_next evs) = S (length items).
Proof.
  induction items as [|x items IH]; intros Hitems.
  - exists [EvNext]. refine (conj _ (conj _ _)).
    + apply for_in_stop.
    + constructor.
    + reflexivity.
  - cbn [forallb] in Hitems. apply andb_true_iff in Hitems as [Hx Hitems].
    destruct (IH Hitems) as (e2 & Hl & Houts & Hcount).
    destruct (report_exn_spec x) as (e1 & Hr & _ & Hnext & Hout & _).
    unfold printable in Hx. destruct (report_exn x); [discriminate|].
    destruct Hout as (s & Hs & Hout).
    exists (EvNext :: e1 ++ e2). refine (conj _ (conj _ _)).
    + cbn [map]. now apply for_in_step.
    + cbn [stdout_of]. rewrite stdout_of_app, Hout. now constructor.
    + simpl. rewrite filter_app, (filter_none _ _ Hnext). simpl.
      now rewrite Hcount.
Qed.

(** C1, amended. For every finite sequence of result items each of
    which can be printed by the fallback chain (no exception leaves the
    loop body for it), the reporting loop ends normally after asking the
    generator once per item and once more for the end of the stream, and
    what it has written is exactly one output per item, in the order the
    items were yielded: the pretty-printed mapping for a mapping, the
    pretty-printed attribute dictionary for a non-mapping object whose
    attribute dictionary can be obtained and pretty-printed, the string
    form for any other object. *)
Theorem printable_items_printed_in_order (items : list V) (w : world V) :
  forallb printable items = true ->
  exists evs,
    for_in (map inr items) report w = (inr tt, add_events w evs) /\
    Forall2 (fun v output => render_spec v = inr output)
            items (stdout_of evs) /\
    length (filter is_next evs) = S (length items).
Proof.
  intros Hitems.
  destruct (printable_loop items Hitems) as (evs & Hl & Houts & Hcount).
  exists evs. refine (conj _ (conj Houts Hcount)). apply Hl.
Qed.

(** X3. When the attempt on the attribute dictionary fails with an
    [Exception] and [str(result)] raises in the handler, the exception
    that leaves the loop is the one raised by [str], not the one that
    was caught; nothing is printed for the item and the loop is over. *)
Theorem fallback_failure_replaces_exception
    (v : V) (e e' : exn) (rest : list (outcome V)) (w : world V) :
  issubclass (type_of v) dict = false ->
  attempt_fails v e ->
  exn_isinstance e Exception = true ->
  py_str v = inl e' ->
  exists evs,
    for_in (inr v :: rest) report w = (inl e', add_events w evs) /\
    stdout_of evs = [] /\
    existsb is_str evs = true /\
    length (filter is_next evs) = 1.
Proof.
  intros Hm Hfail Hcls Hstr.
  destruct (attempt_raises v e Hfail) as (evs & Ha & Hout & Hs & Hnext).
  exists (EvNext :: evs ++ [EvStr v]). refine (conj _ (conj _ (conj _ _))).
  - apply for_in_abort. rewrite (report_other v Hm).
    eapply emits_try_caught; eauto. now apply fallback_raises.
  - cbn [stdout_of]. now rewrite stdout_of_app, Hout.
  - cbn [existsb is_str]. rewrite existsb_app. simpl. apply orb_true_r.
  - simpl. rewrite filter_app, (filter_none _ _ Hnext). reflexivity.
Qed.

(** X4. The mapping branch has no guard: when [pprint(result)] raises
    for a mapping, whatever the class of the exception, the loop ends
    with it right after the formatting; nothing is printed, neither the
    attribute dictionary nor the string form is tried, and the rest of
    the stream is left alone. *)
Theorem mapping_print_failure_propagates
    (v : V) (e : exn) (rest : list (outcome V)) (w : world V) :
  issubclass (type_of v) dict = true ->
  pformat v = inl e ->
  for_in (inr v :: rest) report w
  = (inl e, add_events w [EvNext; EvPFormat v]).
Proof.
  intros Hm He.
  apply (for_in_abort v rest report e [EvPFormat v]).
  rewrite (report_mapping v Hm). now apply pprint_raises.
Qed.

(** X5. [str(result)] is a fallback only: whenever the loop body asks
    an item for its string form, the item is not a mapping and the
    attempt on its attribute dictionary has failed with an exception
    that is an instance of [Exception]. *)
Theorem str_only_as_fallback
    (v : V) (w : world V) (r : outcome unit) (evs : list (event V)) :
  report v w = (r, add_events w evs) ->
  existsb is_str evs = true ->
  issubclass (type_of v) dict = false /\
  exists e, attempt_fails v e /\ exn_isinstance e Exception = true.
Proof.
  intros Hrun Hstr.
  destruct (report_exn_spec v) as (evs0 & Hr & _ & _ & _ & Hfb).
  rewrite Hr in Hrun. inversion Hrun as [[Hout Hevs]].
  apply app_inv_head in Hevs. subst evs0. now apply Hfb.
Qed.

End LoopOutcome.

(** * Further properties of the script *)

Section ScriptFacts.

Context {V : Type} `{PyObject V}.
Variable env : Env V.
Variable path : list string.

(** X6. Loaded under any other name than "__main__", the file still
    runs its top level: it loads the environment file, puts its
    directory in front of the search path and prints the line about the
    pipeline; it ends normally without creating a session or a runner. *)
Theorem import_runs_setup_only :
  env_name env <> "__main__" ->
  script_outcome env path = inr tt /\
  script_trace env path = module_top_events env /\
  script_sys_path env path = env_current_dir env :: path /\
  stdout_of (script_trace env path)
    = [("Loaded pipeline from: " ++ agent_str (env_sre_pipeline env))%string] /\
  existsb is_create_session (script_trace env path) = false /\
  existsb is_new_runner (script_trace env path) = false /\
  existsb is_runner_run (script_trace env path) = false.
Proof.
  intros Hname. apply String.eqb_neq in Hname.
  unfold script_outcome, script_trace, script_sys_path.
  rewrite (script_imported env path Hname). cbn [fst snd trace sys_path].
  refine (conj _ (conj _ (conj _ (conj _ (conj _ (conj _ _)))))); reflexivity.
Qed.

(** The events before the loop hold no request to the generator. *)
Lemma no_next_before_loop :
  Forall (fun ev : event V => ~ ev = EvNext)
         (module_top_events env ++ session_request_events ++ launch_events env).
Proof. simpl. repeat constructor; discriminate. Qed.

(** X7. The line "[DEBUG] Pipeline run complete. Results:" is printed
    before the generator is asked for its first result: every request
    to the generator comes after that line and after the call of
    [runner.run]. *)
Theorem banner_precedes_first_result (t1 t2 : list (event V)) :
  script_trace env path = t1 ++ EvNext :: t2 ->
  In (EvStdout "[DEBUG] Pipeline run complete. Results:") t1 /\
  In (EvRunnerRun "u1" "sess1" run_message) t1.
Proof.
  unfold script_trace.
  destruct (script_cases env path) as [Himp|e _ Hsvc|session r evs _ Hsvc Hl Hf];
    cbn [trace world_at_refusal add_events world_before_loop]; intros Ht.
  - exfalso.
    assert (Hin : In (@EvNext V) (module_top_events env)).
    { rewrite Ht. apply in_elt. }
    simpl in Hin. intuition discriminate.
  - exfalso.
    assert (Hin : In (@EvNext V)
                     (module_top_events env ++ session_request_events)).
    { rewrite Ht. apply in_elt. }
    simpl in Hin. intuition discriminate.
  - rewrite <- !app_assoc in Ht.
    rewrite (app_assoc (module_top_events env)) in Ht.
    rewrite (app_assoc (module_top_events env ++ session_request_events)) in Ht.
    rewrite <- (app_assoc (module_top_events env)) in Ht.
    destruct (split_after_prefix (fun ev => ev = EvNext) _ _ t1 EvNext t2
                no_next_before_loop eq_refl (eq_sym Ht)) as (l & -> & _).
    split; apply in_or_app; left; simpl; tauto.
Qed.

(** X8. What a run as "__main__" writes: first the line about the
    pipeline; when the session is refused, nothing else; when it is
    created, the two "[DEBUG]" lines and then at most one output (the
    text of one [pprint] or [print] call, which may span several lines)
    for each entry of the result stream. *)
Theorem script_stdout_shape :
  env_name env = "__main__" ->
  exists outputs,
    stdout_of (script_trace env path) =
      ("Loaded pipeline from: " ++ agent_str (env_sre_pipeline env))%string ::
      (if is_ok (svc_create_session (env_session_service env)
                   "u1" "sess1" "agents")
       then "[DEBUG] Starting pipeline run..." ::
            "[DEBUG] Pipeline run complete. Results:" :: outputs
       else []) /\
    length outputs <= length (env_results env "u1" "sess1" run_message).
Proof.
  intros Hname. unfold script_trace.
  destruct (script_cases env path) as [Himp|e _ Hsvc|session r evs _ Hsvc Hl Hf].
  - rewrite Hname in Himp. discriminate.
  - rewrite Hsvc. exists []. split; [reflexivity | simpl; lia].
  - rewrite Hsvc.
    destruct (loop_exn_spec (env_results env "u1" "sess1" run_message))
      as (evs' & Hl' & _ & Hlen).
    destruct (emits_fun _ _ _ _ _ Hl Hl') as [_ ->].
    exists (stdout_of evs'). split; [|exact Hlen].
    cbn [trace add_events world_before_loop].
    now rewrite !stdout_of_app.
Qed.

(** The events before the call of [runner.run]. *)
Lemma no_run_before_launch :
  Forall (fun ev : event V => ~ is_runner_run ev = true)
         (module_top_events env ++ session_request_events ++
          [EvAsyncioRunReturn;
           EvNewRunner (env_sre_pipeline env) "agents";
           EvStdout "[DEBUG] Starting pipeline run..."]).
Proof. simpl. repeat constructor; discriminate. Qed.

(** X9. [runner.run] is only called for the session that was created:
    before any call of [runner.run] with a user and a session
    identifier, [create_session] was called with the same two
    identifiers and has returned, and the runner was built under the
    application name the session was created with. *)
Theorem runner_run_targets_created_session
    (user_id session_id : string) (new_message : Content)
    (t1 t2 : list (event V)) :
  script_trace env path = t1 ++ EvRunnerRun user_id session_id new_message :: t2 ->
  exists app_name,
    In (EvCreateSession user_id session_id app_name) t1 /\
    In EvAsyncioRunReturn t1 /\
    In (EvNewRunner (env_sre_pipeline env) app_name) t1.
Proof.
  unfold script_trace.
  destruct (script_cases env path) as [Himp|e _ Hsvc|session r evs _ Hsvc Hl Hf];
    cbn [trace world_at_refusal add_events world_before_loop]; intros Ht.
  - exfalso.
    assert (Hin : In (EvRunnerRun (V := V) user_id session_id new_message)
                     (module_top_events env)).
    { rewrite Ht. apply in_elt. }
    simpl in Hin. intuition discriminate.
  - exfalso.
    assert (Hin : In (EvRunnerRun (V := V) user_id session_id new_message)
                     (module_top_events env ++ session_request_events)).
    { rewrite Ht. apply in_elt. }
    simpl in Hin. intuition discriminate.
  - assert (Hshape :
      (module_top_events env ++ session_request_events ++ launch_events env)
      ++ evs
      = (module_top_events env ++ session_request_events ++
         [EvAsyncioRunReturn;
          EvNewRunner (env_sre_pipeline env) "agents";
          EvStdout "[DEBUG] Starting pipeline run..."])
        ++ EvRunnerRun "u1" "sess1" run_message
        :: EvStdout "[DEBUG] Pipeline run complete. Results:" :: evs).
    { unfold launch_events. now rewrite <- !app_assoc. }
    rewrite Hshape in Ht.
    destruct (split_after_prefix (fun ev => is_runner_run ev = true) _ _ t1
                (EvRunnerRun user_id session_id new_message) t2
                no_run_before_launch eq_refl (eq_sym Ht)) as (l & -> & Hl').
    destruct l as [|x l]; simpl in Hl'.
    + inversion Hl'; subst.
      exists "agents". rewrite !in_app_iff. simpl. tauto.
    + exfalso. injection Hl' as _ Htail.
      assert (Hin : In (EvRunnerRun (V := V) user_id session_id new_message)
                       (EvStdout "[DEBUG] Pipeline run complete. Results:"
                        :: evs)).
      { rewrite <- Htail. apply in_elt. }
      destruct Hin as [Hin|Hin]; [discriminate|].
      rewrite forallb_forall in Hf. specialize (Hf _ Hin). discriminate.
Qed.

(** X10. Putting the script directory in front leaves the rest of the
    search path as it was: the old entries follow in their order, so a
    package the script directory does not provide is found where it was
    found before. *)
Theorem other_packages_resolve_as_before
    (provides : string -> string -> bool) (package : string) :
  provides (env_current_dir env) package = false ->
  find_on_path provides (script_sys_path env path) package
    = find_on_path provides path package /\
  forall i, nth_error (script_sys_path env path) (S i) = nth_error path i.
Proof.
  intros Hp. rewrite sys_path_after_script. simpl. now rewrite Hp.
Qed.

(** *** Imports and the search path *)

Lemma import_resolutions_quiet (holds : string -> string -> entry_kind)
    (p : list string) (t : list (event V)) :
  forallb no_import_event t = true ->
  import_resolutions holds p t = [] /\ replay_sys_path p t = p.
Proof.
  induction t as [|ev t IH]; [now split|].
  cbn [forallb]. intros Hev. apply andb_true_iff in Hev as [Hev Ht].
  destruct ev; try discriminate; simpl; now apply IH.
Qed.

Lemma import_resolutions_app (holds : string -> string -> entry_kind)
    (p : list string) (a b : list (event V)) :
  import_resolutions holds p (a ++ b)
  = import_resolutions holds p a
    ++ import_resolutions holds (replay_sys_path p a) b.
Proof.
  revert p. induction a as [|ev a IH]; intros p; [reflexivity|].
  destruct ev; simpl; rewrite ?IH; reflexivity.
Qed.

Lemma replay_sys_path_app (p : list string) (a b : list (event V)) :
  replay_sys_path p (a ++ b) = replay_sys_path (replay_sys_path p a) b.
Proof.
  revert p. induction a as [|ev a IH]; intros p; [reflexivity|].
  destruct ev; simpl; now rewrite ?IH.
Qed.

Lemma reporting_is_quiet (evs : list (event V)) :
  forallb reporting_event evs = true -> forallb no_import_event evs = true.
Proof.
  induction evs as [|ev evs IH]; [reflexivity|].
  cbn [forallb]. intros Hev. apply andb_true_iff in Hev as [Hev Hevs].
  rewrite (IH Hevs). destruct ev; try discriminate; reflexivity.
Qed.

(** After its top level the script neither imports nor touches the
    search path. *)
Lemma script_trace_after_top :
  exists rest,
    script_trace env path = module_top_events env ++ rest /\
    forallb no_import_event rest = true.
Proof.
  unfold script_trace.
  destruct (script_cases env path) as [Himp|e _ Hsvc|session r evs _ Hsvc Hl Hf];
    cbn [trace world_at_refusal add_events world_before_loop].
  - exists []. now rewrite app_nil_r.
  - exists session_request_events. now split.
  - exists (session_request_events ++ launch_events env ++ evs). split.
    + now rewrite <- !app_assoc.
    + rewrite !forallb_app, (reporting_is_quiet evs Hf). reflexivity.
Qed.

(** C8, amended. Environment setup inserts the directory of the script
    at index 0 of the module search path, and the path recorded by the
    run is the path the script leaves.  From then on the path search
    finds a module or regular package that the script directory holds
    in the script directory, whatever the other entries hold: this is
    the case for the imports of lines 27-30.  The imports of lines 13-17
    ran before the insertion and were searched on the path the
    interpreter started with. *)
Theorem project_dir_first_after_insert
    (holds : string -> string -> entry_kind) (package : string) :
  holds (env_current_dir env) package = RegularEntry ->
  In (EvSysPathInsert 0 (env_current_dir env)) (script_trace env path) /\
  nth_error (script_sys_path env path) 0 = Some (env_current_dir env) /\
  script_sys_path env path = env_current_dir env :: path /\
  replay_sys_path path (script_trace env path) = script_sys_path env path /\
  path_search holds (script_sys_path env path) package
    = FoundIn (env_current_dir env) /\
  import_resolutions holds path (script_trace env path)
    = map (fun m => (m, path_search holds path (top_level m)))
          ["sys"; "os"; "asyncio"; "dotenv"; "pprint"; "sys"; "os"]
      ++ map (fun m => (m, path_search holds (env_current_dir env :: path)
                                       (top_level m)))
             ["google.adk.runners"; "google.adk.sessions";
              "google.genai.types"; "pipeline.sre_pipeline"].
Proof.
  intros Hp. rewrite sys_path_after_script.
  destruct script_trace_after_top as (rest & -> & Hquiet).
  destruct (import_resolutions_quiet holds (env_current_dir env :: path)
              rest Hquiet) as [Hnone Hsame].
  refine (conj _ (conj _ (conj _ (conj _ (conj _ _))))).
  - apply in_or_app. left. simpl. tauto.
  - reflexivity.
  - reflexivity.
  - rewrite replay_sys_path_app. exact Hsame.
  - unfold path_search. cbn [path_search_from]. now rewrite Hp.
  - rewrite import_resolutions_app.
    change (replay_sys_path path (module_top_events env))
      with (env_current_dir env :: path).
    rewrite Hnone, app_nil_r. reflexivity.
Qed.

End ScriptFacts.

(** ** The further properties on the doubles *)

(** Two printable items, then an item whose string fallback raises. *)
Lemma loop_stops_at_first_failure_demo :
  let items := [a_mapping; an_event] in
  let e := Exn RuntimeError "no string form" in
  forallb printable items = true /\
  entry_exn (inr a_silent) = Some e /\
  exists evs,
    (forall (rest : list (outcome obj)) (w : world obj),
       for_in (map inr items ++ inr a_silent :: rest) report w
       = (inl e, add_events w evs)) /\
    Forall2 (fun v line => render_spec v = inr line) items (stdout_of evs) /\
    length (filter is_next evs) = 3.
Proof.
  cbv zeta. split; [reflexivity|]. split; [reflexivity|].
  apply (loop_stops_at_first_failure [a_mapping; an_event] (inr a_silent)
           (Exn RuntimeError "no string form")); reflexivity.
Defined.

Lemma fallback_failure_replaces_exception_demo :
  let e' := Exn RuntimeError "no string form" in
  let w := initial_world obj [] in
  attempt_fails a_silent no___dict__ /\
  exists evs,
    for_in [inr a_silent; inr a_plain] report w = (inl e', add_events w evs) /\
    stdout_of evs = [] /\
    existsb is_str evs = true /\
    length (filter is_next evs) = 1.
Proof.
  cbv zeta. split; [left; reflexivity|].
  apply (fallback_failure_replaces_exception a_silent no___dict__
           (Exn RuntimeError "no string form") [inr a_plain]
           (initial_world obj [])).
  - reflexivity.
  - left. reflexivity.
  - reflexivity.
  - reflexivity.
Defined.

Lemma mapping_print_failure_propagates_demo :
  let w := initial_world obj [] in
  exn_isinstance (Exn ValueError "broken repr") Exception = true /\
  for_in [inr a_broken_mapping; inr a_plain] report w
  = (inl (Exn ValueError "broken repr"),
     add_events w [EvNext; EvPFormat a_broken_mapping]).
Proof.
  cbv zeta. split; [reflexivity|].
  apply (mapping_print_failure_propagates a_broken_mapping
           (Exn ValueError "broken repr") [inr a_plain]
           (initial_world obj [])); reflexivity.
Defined.

Lemma str_only_as_fallback_demo :
  report a_plain (initial_world obj [])
  = (inr tt,
     add_events (initial_world obj [])
       [EvGetDict a_plain; EvStr a_plain; EvStdout "plain"]) /\
  issubclass (type_of a_plain) dict = false /\
  exists e, attempt_fails a_plain e /\ exn_isinstance e Exception = true.
Proof.
  split; [reflexivity|].
  apply (str_only_as_fallback a_plain (initial_world obj []) (inr tt)
           [EvGetDict a_plain; EvStr a_plain; EvStdout "plain"]);
    reflexivity.
Defined.

Lemma import_runs_setup_only_demo :
  let path := ["/usr/lib/python3"] in
  script_outcome imported_env path = inr tt /\
  script_trace imported_env path = module_top_events imported_env /\
  script_sys_path imported_env path = "/srv/app" :: path /\
  stdout_of (script_trace imported_env path)
    = ["Loaded pipeline from: <SequentialAgent sre_pipeline>"] /\
  existsb is_create_session (script_trace imported_env path) = false /\
  existsb is_new_runner (script_trace imported_env path) = false /\
  existsb is_runner_run (script_trace imported_env path) = false.
Proof.
  cbv zeta.
  apply (import_runs_setup_only imported_env ["/usr/lib/python3"]).
  discriminate.
Defined.

Lemma banner_precedes_first_result_demo :
  let env := demo_env [inr a_mapping] in
  let path := ["/usr/lib/python3"] in
  let t1 := module_top_events env ++ session_request_events
            ++ launch_events env in
  let t2 := [EvPFormat a_mapping; EvStdout "{'status': 'ok'}"; EvNext] in
  script_trace env path = t1 ++ EvNext :: t2 /\
  In (EvStdout "[DEBUG] Pipeline run complete. Results:") t1 /\
  In (EvRunnerRun "u1" "sess1" run_message) t1.
Proof.
  cbv zeta. split; [reflexivity|].
  apply (banner_precedes_first_result (demo_env [inr a_mapping])
           ["/usr/lib/python3"] _
           [EvPFormat a_mapping; EvStdout "{'status': 'ok'}"; EvNext]).
  reflexivity.
Defined.

(** Three entries, the second of which cannot be printed: one output. *)
Lemma script_stdout_shape_demo :
  let env := demo_env [inr a_mapping; inr a_silent; inr a_plain] in
  let path := ["/usr/lib/python3"] in
  stdout_of (script_trace env path)
    = ["Loaded pipeline from: <SequentialAgent sre_pipeline>";
       "[DEBUG] Starting pipeline run...";
       "[DEBUG] Pipeline run complete. Results:";
       "{'status': 'ok'}"] /\
  exists outputs,
    stdout_of (script_trace env path) =
      "Loaded pipeline from: <SequentialAgent sre_pipeline>" ::
      (if is_ok (svc_create_session (env_session_service env)
                   "u1" "sess1" "agents")
       then "[DEBUG] Starting pipeline run..." ::
            "[DEBUG] Pipeline run complete. Results:" :: outputs
       else []) /\
    length outputs <= 3.
Proof.
  cbv zeta. split; [vm_compute; reflexivity|].
  apply (script_stdout_shape
           (demo_env [inr a_mapping; inr a_silent; inr a_plain])
           ["/usr/lib/python3"]).
  reflexivity.
Defined.

Lemma runner_run_targets_created_session_demo :
  let env := demo_env [inr a_mapping] in
  let path := ["/usr/lib/python3"] in
  let t1 := module_top_events env ++ session_request_events ++
            [EvAsyncioRunReturn;
             EvNewRunner (env_sre_pipeline env) "agents";
             EvStdout "[DEBUG] Starting pipeline run..."] in
  let t2 := [EvStdout "[DEBUG] Pipeline run complete. Results:"; EvNext;
             EvPFormat a_mapping; EvStdout "{'status': 'ok'}"; EvNext] in
  script_trace env path = t1 ++ EvRunnerRun "u1" "sess1" run_message :: t2 /\
  exists app_name,
    In (EvCreateSession "u1" "sess1" app_name) t1 /\
    In EvAsyncioRunReturn t1 /\
    In (EvNewRunner (env_sre_pipeline env) app_name) t1.
Proof.
  cbv zeta. split; [reflexivity|].
  apply (runner_run_targets_created_session (demo_env [inr a_mapping])
           ["/usr/lib/python3"] "u1" "sess1" run_message _
           [EvStdout "[DEBUG] Pipeline run complete. Results:"; EvNext;
            EvPFormat a_mapping; EvStdout "{'status': 'ok'}"; EvNext]).
  reflexivity.
Defined.

(** The [google] package is installed globally only. *)
Lemma other_packages_resolve_as_before_demo :
  let env := demo_env [] in
  let path := ["/usr/lib/python3"; "/usr/lib/python3/site-packages"] in
  let provides := fun (dir package : string) =>
    String.eqb package "google" &&
    String.eqb dir "/usr/lib/python3/site-packages" in
  find_on_path provides path "google"
    = Some "/usr/lib/python3/site-packages" /\
  find_on_path provides (script_sys_path env path) "google"
    = find_on_path provides path "google" /\
  forall i, nth_error (script_sys_path env path) (S i) = nth_error path i.
Proof.
  cbv zeta. split; [reflexivity|].
  apply (other_packages_resolve_as_before (demo_env [])
           ["/usr/lib/python3"; "/usr/lib/python3/site-packages"]
           (fun dir package =>
              String.eqb package "google" &&
              String.eqb dir "/usr/lib/python3/site-packages")
           "google").
  reflexivity.
Defined.

(** ** The amended properties on the doubles *)

(** The three items of the demonstration: a mapping, an object with an
    attribute dictionary, a plain object. *)
Lemma printable_items_printed_in_order_demo :
  let items := [a_mapping; an_event; a_plain] in
  let w := initial_world obj [] in
  forallb printable items = true /\
  map render_spec items
    = [inr "{'status': 'ok'}"; inr "{'author': 'sre'}"; inr "plain"] /\
  exists evs,
    for_in (map inr items) report w = (inr tt, add_events w evs) /\
    Forall2 (fun v output => render_spec v = inr output)
            items (stdout_of evs) /\
    length (filter is_next evs) = 4.
Proof.
  cbv zeta. split; [reflexivity|]. split; [reflexivity|].
  apply (printable_items_printed_in_order [a_mapping; an_event; a_plain]
           (initial_world obj [])).
  reflexivity.
Defined.

(** C1 as stated fails: after a mapping whose [repr] raises, the loop
    is over, and the plain object that follows, which has a string
    form, is never printed. *)
Lemma unprintable_item_ends_printing :
  let items := [a_mapping; a_broken_mapping; a_plain] in
  let run := for_in (map inr items) report (initial_world obj []) in
  fst run = inl (Exn ValueError "broken repr") /\
  stdout_of (trace (snd run)) = ["{'status': 'ok'}"] /\
  py_str a_plain = inr "plain" /\
  ~ every_item_printed items.
Proof.
  cbv zeta. split; [reflexivity|]. split; [reflexivity|].
  split; [reflexivity|].
  intros Hall.
  destruct (Hall (initial_world obj [])) as (outputs & Hout & Hitems).
  vm_compute in Hout. subst outputs.
  inversion Hitems as [|? ? ? ? _ Hrest]. inversion Hrest.
Qed.

(** A regular [pipeline] package next to the script and another one
    among the installed packages. *)
Lemma project_dir_first_after_insert_demo :
  let env := demo_env [] in
  pipeline_in_both "/usr/lib/python3/site-packages" "pipeline"
    = RegularEntry /\
  path_search pipeline_in_both (script_sys_path env safe_path) "pipeline"
    = FoundIn "/srv/app" /\
  In ("pipeline.sre_pipeline", FoundIn "/srv/app")
     (import_resolutions pipeline_in_both safe_path
        (script_trace env safe_path)).
Proof.
  cbv zeta. split; [reflexivity|].
  destruct (project_dir_first_after_insert (demo_env []) safe_path
              pipeline_in_both "pipeline" eq_refl)
    as (_ & _ & _ & _ & Hsearch & Himports).
  split; [exact Hsearch|].
  rewrite Himports. apply in_or_app. right. simpl. tauto.
Defined.

(** C8 as stated fails: with an interpreter that does not put the
    script directory on the path, [from dotenv import load_dotenv] on
    line 15 runs before the insertion of line 23 and finds the
    installed [dotenv], although the script directory holds a package
    of that name; and a bare [pipeline] directory next to the script
    loses to an installed regular [pipeline] package. *)
Lemma import_before_insert_misses_project_dir :
  let env := demo_env [] in
  dotenv_in_both (env_current_dir env) "dotenv" = RegularEntry /\
  In ("dotenv", FoundIn "/usr/lib/python3/site-packages")
     (import_resolutions dotenv_in_both safe_path
        (script_trace env safe_path)) /\
  ~ In ("dotenv", FoundIn "/srv/app")
       (import_resolutions dotenv_in_both safe_path
          (script_trace env safe_path)) /\
  pipeline_bare_locally (env_current_dir env) "pipeline" = NamespacePortion /\
  In ("pipeline.sre_pipeline", FoundIn "/usr/lib/python3/site-packages")
     (import_resolutions pipeline_bare_locally safe_path
        (script_trace env safe_path)) /\
  ~ (forall (holds : string -> string -> entry_kind) (path : list string)
            (module : string) (found : resolution),
       In (module, found)
          (import_resolutions holds path (script_trace env path)) ->
       holds (env_current_dir env) (top_level module) <> NoEntry ->
       found = FoundIn (env_current_dir env)).
Proof.
  cbv zeta.
  assert (Hdotenv :
    In ("dotenv", FoundIn "/usr/lib/python3/site-packages")
       (import_resolutions dotenv_in_both safe_path
          (script_trace (demo_env []) safe_path))).
  { vm_compute. tauto. }
  refine (conj eq_refl (conj Hdotenv (conj _ (conj eq_refl (conj _ _))))).
  - vm_compute. intuition discriminate.
  - vm_compute. tauto.
  - intros Hall.
    specialize (Hall dotenv_in_both safe_path "dotenv" _ Hdotenv).
    assert (Hfound : FoundIn "/usr/lib/python3/site-packages"
                     = FoundIn (env_current_dir (demo_env []))).
    { apply Hall. discriminate. }
    discriminate Hfound.
Qed.
